(** * vnstock-mcp: the tool server of [src/vnstock_mcp/server.py]

    A shallow embedding of the MCP tools.  The market-data library
    (vnstock), the optimisation library (pypfopt) and the parts of pandas
    the server only passes through are external collaborators: they are
    the fields of an environment record [Env].  What the server itself
    does (control flow, early returns, exception handlers, message
    building, rounding, the shape of the JSON it returns) is written out. *)

From Stdlib Require Import List String Ascii Bool ZArith QArith Qround Qabs.
From Stdlib Require Import Lia Lqa Permutation Sorted.
Import ListNotations.
Local Open Scope list_scope.
Local Open Scope string_scope.

(* ================================================================== *)
(** ** Python values *)
(* ================================================================== *)

(** Exceptions.  The server distinguishes pypfopt's [OptimizationError]
    from every other subclass of [Exception]; [exn_str] is [str(e)]. *)
Inductive ExnClass : Type := OptimizationError | OtherException.

Record exn : Type := mkExn { exn_class : ExnClass; exn_str : string }.

(** The result of a call into a library: a value or a raised exception. *)
Inductive ext (A : Type) : Type :=
| Ok (a : A)
| Err (e : exn).
Arguments Ok {A} a.
Arguments Err {A} e.

Definition ext_bind {A B : Type} (x : ext A) (k : A -> ext B) : ext B :=
  match x with
  | Ok a => k a
  | Err e => Err e
  end.

Fixpoint ext_map {A B : Type} (f : A -> ext B) (l : list A) : ext (list B) :=
  match l with
  | [] => Ok []
  | a :: r =>
      ext_bind (f a) (fun b => ext_bind (ext_map f r) (fun bs => Ok (b :: bs)))
  end.

(** JSON values, as built by [json.dumps] and [DataFrame.to_json].
    Python floats are modelled by exact rationals. *)
#[warnings="-register-all"]
Inductive json : Type :=
| JNull
| JBool (b : bool)
| JNum (q : Q)
| JStr (s : string)
| JArr (l : list json)
| JObj (fields : list (string * json)).

(** What a tool hands back to its caller: a plain message, or the JSON
    text of a value (the serialiser itself is left symbolic). *)
Inductive Reply : Type :=
| Text (s : string)
| Json (j : json).

(** [str.upper()], on ASCII letters. *)
Definition upper_ascii (c : ascii) : ascii :=
  let n := nat_of_ascii c in
  if (97 <=? n)%nat && (n <=? 122)%nat then ascii_of_nat (n - 32) else c.

Fixpoint upper (s : string) : string :=
  match s with
  | EmptyString => EmptyString
  | String c r => String (upper_ascii c) (upper r)
  end.

(** [round(v, ndigits)]: round half to even at [ndigits] decimals. *)
Definition round_half_even (x : Q) : Z :=
  let f := Qfloor x in
  let r := (x - inject_Z f)%Q in
  match (r ?= 1 # 2)%Q with
  | Lt => f
  | Gt => (f + 1)%Z
  | Eq => if Z.even f then f else (f + 1)%Z
  end.

Definition pyround (v : Q) (ndigits : nat) : Q :=
  let scale := Z.pow 10 (Z.of_nat ndigits) in
  Qmake (round_half_even (v * inject_Z scale)) (Z.to_pos scale).

(* ================================================================== *)
(** ** pandas frames *)
(* ================================================================== *)

(** A cell holds a number, a string, or is missing. *)
Inductive Cell : Type :=
| Num (q : Q)
| Str (s : string)
| NaN.

(** A frame in its [orient="records"] view: one association list per
    row, every row carrying the same column names. *)
Definition Row : Type := list (string * Cell).
Definition DataFrame : Type := list Row.

Definition is_nan (c : Cell) : bool :=
  match c with
  | NaN => true
  | _ => false
  end.

Fixpoint row_get (col : string) (r : Row) : option Cell :=
  match r with
  | [] => None
  | (k, c) :: r' => if String.eqb col k then Some c else row_get col r'
  end.

Definition row_key (col : string) (r : Row) : Cell :=
  match row_get col r with
  | Some c => c
  | None => NaN
  end.

(** [col in df.columns] *)
Definition has_column (col : string) (df : DataFrame) : bool :=
  forallb (fun r => match row_get col r with Some _ => true | None => false end) df.

(** [df.empty]: no rows, or rows without any column. *)
Definition df_empty (df : DataFrame) : bool :=
  match df with
  | [] => true
  | [] :: _ => true
  | (_ :: _) :: _ => false
  end.

(** The order [sort_values] uses on one column: numbers ascending,
    strings in dictionary order, missing values last. *)
Definition cell_leb (a b : Cell) : bool :=
  match a, b with
  | Num x, Num y => Qle_bool x y
  | Num _, _ => true
  | Str _, Num _ => false
  | Str s, Str t => String.leb s t
  | Str _, NaN => true
  | NaN, NaN => true
  | NaN, _ => false
  end.

Fixpoint insert_row (col : string) (r : Row) (l : list Row) : list Row :=
  match l with
  | [] => [r]
  | x :: l' =>
      if cell_leb (row_key col x) (row_key col r)
      then x :: insert_row col r l'
      else r :: l
  end.

Definition sort_rows (col : string) (df : DataFrame) : DataFrame :=
  fold_left (fun acc r => insert_row col r acc) df [].

Definition is_num (c : Cell) : bool :=
  match c with
  | Num _ => true
  | _ => false
  end.

Definition is_str (c : Cell) : bool :=
  match c with
  | Str _ => true
  | _ => false
  end.

(** A column holding both numbers and strings, which Python cannot
    compare. *)
Definition mixed_column (col : string) (df : DataFrame) : bool :=
  existsb (fun r => is_num (row_key col r)) df
  && existsb (fun r => is_str (row_key col r)) df.

(** [df.sort_values(col).reset_index(drop=True)]; a missing column is a
    [KeyError], a column mixing numbers and strings a [TypeError]. *)
Definition sort_values (col : string) (df : DataFrame) : ext DataFrame :=
  if has_column col df then
    if mixed_column col df
    then Err (mkExn OtherException
                "'<' not supported between instances of 'str' and 'int'")
    else Ok (sort_rows col df)
  else Err (mkExn OtherException ("'" ++ col ++ "'")).

(** [df.to_json(orient="records", date_format="iso", indent=2)] *)
Definition cell_json (c : Cell) : json :=
  match c with
  | Num q => JNum q
  | Str s => JStr s
  | NaN => JNull
  end.

Definition row_json (r : Row) : json :=
  JObj (map (fun kc => (fst kc, cell_json (snd kc))) r).

Definition to_json (df : DataFrame) : Reply :=
  Json (JArr (map row_json df)).

(** *** Price tables *)

(** One symbol's closing prices: the column name and the (date, close)
    rows left by [df[["time", "close"]]] with [time] as index. *)
Definition PriceSeries : Type := (string * list (Z * Cell))%type.

Record PriceTable : Type := mkTable {
  columns : list string;
  rows : list (Z * list Cell)
}.

Fixpoint insert_date (d : Z) (l : list Z) : list Z :=
  match l with
  | [] => [d]
  | x :: l' =>
      if (d <? x)%Z then d :: l
      else if (d =? x)%Z then l
      else x :: insert_date d l'
  end.

(** The union of the series' dates: ascending, without repetition. *)
Definition index_union (all_data : list PriceSeries) : list Z :=
  fold_right insert_date [] (flat_map (fun s => map fst (snd s)) all_data).

Fixpoint cell_at (d : Z) (s : list (Z * Cell)) : Cell :=
  match s with
  | [] => NaN
  | (d', c) :: s' => if (d =? d')%Z then c else cell_at d s'
  end.

(** Modelled from the spec: [pd.concat(all_data, axis=1)] is pandas
    code; section 4.2 gives it as an outer join on date and section 3
    gives the joined table a deduplicated ascending date index, a symbol
    without a price on a date having a missing cell there. *)
Definition concat (all_data : list PriceSeries) : PriceTable :=
  {| columns := map fst all_data;
     rows := map (fun d => (d, map (fun s => cell_at d (snd s)) all_data))
                 (index_union all_data) |}.

Definition complete_row (r : Z * list Cell) : bool :=
  forallb (fun c => negb (is_nan c)) (snd r).

(** Modelled from the spec: [combined_df.dropna()] is pandas code;
    section 4.2 has it drop every row containing at least one missing
    value. *)
Definition dropna (t : PriceTable) : PriceTable :=
  {| columns := columns t; rows := filter complete_row (rows t) |}.

(** [combined_df.empty] *)
Definition table_empty (t : PriceTable) : bool :=
  match rows t with
  | [] => true
  | _ :: _ => false
  end.

(* ================================================================== *)
(** ** The external libraries *)
(* ================================================================== *)

(** A request to the market-data library, with the arguments the server
    passes. *)
Inductive Request : Type :=
| Quote_history (symbol source start end_ interval : string)
| Fx_history (symbol source start end_ interval : string)
| Crypto_history (symbol source start end_ interval : string)
| World_index_history (symbol source start end_ interval : string)
| Finance_income_statement (symbol source period lang : string)
| Finance_balance_sheet (symbol source period lang : string)
| Finance_cash_flow (symbol source period lang : string)
| Finance_ratio (symbol source period lang : string)
| Company_dividends (symbol source : string)
| Company_overview (symbol source : string)
| Company_shareholders (symbol source : string)
| Company_officers (symbol source filter_by : string)
| Company_subsidiaries (symbol source filter_by : string)
| Company_events (symbol source : string)
| Company_news (symbol source : string)
| Company_reports (symbol source : string)
| Company_ratio_summary (symbol source : string)
| Company_trading_stats (symbol source : string)
| Sjc_gold_price (date : option string)
| Btmc_goldprice
| Vcb_exchange_rate (date : string)
| Fund_listing (fund_type : string)
| Fund_filter (symbol : string)
| Fund_nav_report (symbol : string)
| Fund_top_holding (symbol : string)
| Fund_industry_holding (symbol : string)
| Fund_asset_holding (symbol : string).

(** What reaches the market-data library, in the order it is issued. *)
Inductive Event : Type :=
| Init (symbol source : string)
| Fetch (r : Request).

Definition Mu : Type := list (string * Q).
Definition Matrix : Type := list (list Q).
Definition Weights : Type := list (string * Q).
Definition Performance : Type := (Q * Q * Q)%type.

Record Env : Type := mkEnv {
  (* vnstock *)
  vnstock_stock : string -> string -> ext unit;
  data_source : Request -> ext (option DataFrame);
  flatten_hierarchical_index : DataFrame -> ext DataFrame;
  (* pandas *)
  to_datetime : Cell -> ext Z;
  (* pypfopt *)
  mean_historical_return : PriceTable -> bool -> ext Mu;
  sample_cov : PriceTable -> ext Matrix;
  ledoit_wolf_shrinkage : PriceTable -> ext Matrix;
  exp_cov : PriceTable -> ext Matrix;
  semicovariance : PriceTable -> ext Matrix;
  EF : Type;
  EfficientFrontier : Mu -> Matrix -> ext EF;
  max_sharpe : EF -> Q -> ext EF;
  min_volatility : EF -> ext EF;
  max_quadratic_utility : EF -> Q -> ext EF;
  portfolio_performance : EF -> Q -> ext Performance;
  clean_weights : EF -> ext Weights
}.

(* ================================================================== *)
(** ** Control flow of a tool *)
(* ================================================================== *)

(** How a block of statements ends: it falls through with a value, it
    executes a [return], or an exception propagates out of it. *)
Inductive Outcome (A : Type) : Type :=
| Val (a : A)
| Return (r : Reply)
| Raise (e : exn).
Arguments Val {A} a.
Arguments Return {A} r.
Arguments Raise {A} e.

(** A block: the requests it issued, in order, and how it ended. *)
Definition IO (A : Type) : Type := (list Event * Outcome A)%type.

Definition ret {A : Type} (a : A) : IO A := ([], Val a).
Definition return_ {A : Type} (r : Reply) : IO A := ([], Return r).
Definition raise {A : Type} (e : exn) : IO A := ([], Raise e).

Definition bind {A B : Type} (m : IO A) (k : A -> IO B) : IO B :=
  match snd m with
  | Val a => ((fst m ++ fst (k a))%list, snd (k a))
  | Return r => (fst m, Return r)
  | Raise e => (fst m, Raise e)
  end.

(** [try: m except Exception as e: h e] *)
Definition try_except {A : Type} (m : IO A) (h : exn -> IO A) : IO A :=
  match snd m with
  | Raise e => ((fst m ++ fst (h e))%list, snd (h e))
  | _ => m
  end.

Definition lift {A : Type} (x : ext A) : IO A :=
  match x with
  | Ok a => ret a
  | Err e => raise e
  end.

Notation "x <- m ;; k" := (bind m (fun x => k))
  (at level 61, m at next level, right associativity).
Notation "m ;;; k" := (bind m (fun _ => k))
  (at level 61, right associativity).

(** The body of a tool: every path ends in a [return] or an exception,
    none falls through. *)
Definition Body : Type := IO Empty_set.

Definition trace {A : Type} (m : IO A) : list Event := fst m.
Definition outcome {A : Type} (m : IO A) : Outcome A := snd m.

(** What the caller of a tool sees. *)
Definition returned (b : Body) : ext Reply :=
  match outcome b with
  | Val v => match v with end
  | Return r => Ok r
  | Raise e => Err e
  end.

Definition stock (env : Env) (symbol source : string) : IO unit :=
  ([Init symbol source], outcome (lift (vnstock_stock env symbol source))).

Definition request (env : Env) (r : Request) : IO (option DataFrame) :=
  ([Fetch r], outcome (lift (data_source env r))).

(** [if df is None or df.empty: return msg], the frame otherwise. *)
Definition or_return (df : option DataFrame) (msg : string) : IO DataFrame :=
  match df with
  | Some d => if df_empty d then return_ (Text msg) else ret d
  | None => return_ (Text msg)
  end.

(* ================================================================== *)
(** ** The tools *)
(* ================================================================== *)

Section Tools.

Variable env : Env.

Definition handler (prefix : string) (e : exn) : Body :=
  return_ (Text (prefix ++ exn_str e)).

(** *** Price history *)

Definition get_stock_history_try (symbol start_date end_date interval : string) : Body :=
  df <- request env (Quote_history symbol "VCI" start_date end_date interval) ;;
  df <- or_return df ("No data found for " ++ symbol ++ " between " ++ start_date
                      ++ " and " ++ end_date) ;;
  return_ (to_json df).

Definition get_stock_history (symbol start_date end_date interval : string) : Body :=
  try_except (get_stock_history_try symbol start_date end_date interval)
             (handler "Error fetching stock data: ").

Definition get_forex_history_try (symbol start_date end_date interval : string) : Body :=
  df <- request env (Fx_history symbol "MSN" start_date end_date interval) ;;
  df <- or_return df ("No forex data found for " ++ symbol ++ " between " ++ start_date
                      ++ " and " ++ end_date) ;;
  return_ (to_json df).

Definition get_forex_history (symbol start_date end_date interval : string) : Body :=
  try_except (get_forex_history_try symbol start_date end_date interval)
             (handler "Error fetching forex data: ").

Definition get_crypto_history_try (symbol start_date end_date interval : string) : Body :=
  df <- request env (Crypto_history symbol "MSN" start_date end_date interval) ;;
  df <- or_return df ("No crypto data found for " ++ symbol ++ " between " ++ start_date
                      ++ " and " ++ end_date) ;;
  return_ (to_json df).

Definition get_crypto_history (symbol start_date end_date interval : string) : Body :=
  try_except (get_crypto_history_try symbol start_date end_date interval)
             (handler "Error fetching crypto data: ").

Definition vietnam_indices : list string := ["VNINDEX"; "HNXINDEX"; "UPCOMINDEX"].

Definition get_index_history_try (symbol start_date end_date interval : string) : Body :=
  df <- (if existsb (String.eqb (upper symbol)) vietnam_indices
         then request env (Quote_history symbol "VCI" start_date end_date interval)
         else request env (World_index_history symbol "MSN" start_date end_date interval)) ;;
  df <- or_return df ("No index data found for " ++ symbol ++ " between " ++ start_date
                      ++ " and " ++ end_date) ;;
  return_ (to_json df).

Definition get_index_history (symbol start_date end_date interval : string) : Body :=
  try_except (get_index_history_try symbol start_date end_date interval)
             (handler "Error fetching index data: ").

(** *** Fundamentals *)

Definition get_income_statement_try (symbol lang : string) : Body :=
  stock env (upper symbol) "VCI" ;;;
  df <- request env (Finance_income_statement (upper symbol) "VCI" "year" lang) ;;
  df <- or_return df ("No income statement data found for " ++ symbol) ;;
  df <- lift (sort_values "yearReport" df) ;;
  return_ (to_json df).

Definition get_income_statement (symbol lang : string) : Body :=
  try_except (get_income_statement_try symbol lang)
             (handler ("Error fetching income statement for " ++ symbol ++ ": ")).

Definition get_balance_sheet_try (symbol lang : string) : Body :=
  stock env (upper symbol) "VCI" ;;;
  df <- request env (Finance_balance_sheet (upper symbol) "VCI" "year" lang) ;;
  df <- or_return df ("No balance sheet data found for " ++ symbol) ;;
  df <- lift (sort_values "yearReport" df) ;;
  return_ (to_json df).

Definition get_balance_sheet (symbol lang : string) : Body :=
  try_except (get_balance_sheet_try symbol lang)
             (handler ("Error fetching balance sheet for " ++ symbol ++ ": ")).

Definition get_cash_flow_try (symbol lang : string) : Body :=
  stock env (upper symbol) "VCI" ;;;
  df <- request env (Finance_cash_flow (upper symbol) "VCI" "year" lang) ;;
  df <- or_return df ("No cash flow data found for " ++ symbol) ;;
  df <- lift (sort_values "yearReport" df) ;;
  return_ (to_json df).

Definition get_cash_flow (symbol lang : string) : Body :=
  try_except (get_cash_flow_try symbol lang)
             (handler ("Error fetching cash flow for " ++ symbol ++ ": ")).

Definition get_financial_ratios_try (symbol lang : string) : Body :=
  stock env (upper symbol) "VCI" ;;;
  df <- request env (Finance_ratio (upper symbol) "VCI" "year" lang) ;;
  df <- or_return df ("No financial ratio data found for " ++ symbol) ;;
  flattened_df <- lift (flatten_hierarchical_index env df) ;;
  flattened_df <- (if has_column "yearReport" flattened_df
                   then lift (sort_values "yearReport" flattened_df)
                   else ret flattened_df) ;;
  return_ (to_json flattened_df).

Definition get_financial_ratios (symbol lang : string) : Body :=
  try_except (get_financial_ratios_try symbol lang)
             (handler ("Error fetching financial ratios for " ++ symbol ++ ": ")).

Definition get_dividend_history_try (symbol : string) : Body :=
  stock env (upper symbol) "TCBS" ;;;
  df <- request env (Company_dividends (upper symbol) "TCBS") ;;
  df <- or_return df ("No dividend data found for " ++ symbol) ;;
  return_ (to_json df).

Definition get_dividend_history (symbol : string) : Body :=
  try_except (get_dividend_history_try symbol)
             (handler ("Error fetching dividend history for " ++ symbol ++ ": ")).

(** *** Gold prices and exchange rates *)

Definition get_sjc_gold_price_try (date : option string) : Body :=
  df <- request env (Sjc_gold_price date) ;;
  let date_str := match date with
                  | Some (String c d) => String c d
                  | _ => "current date"
                  end in
  df <- or_return df ("No SJC gold price data found for " ++ date_str) ;;
  return_ (to_json df).

Definition get_sjc_gold_price (date : option string) : Body :=
  try_except (get_sjc_gold_price_try date) (handler "Error fetching SJC gold prices: ").

Definition get_btmc_gold_price_try : Body :=
  df <- request env Btmc_goldprice ;;
  df <- or_return df "No BTMC gold price data found" ;;
  return_ (to_json df).

Definition get_btmc_gold_price : Body :=
  try_except get_btmc_gold_price_try (handler "Error fetching BTMC gold prices: ").

Definition get_vcb_exchange_rate_try (date : string) : Body :=
  df <- request env (Vcb_exchange_rate date) ;;
  df <- or_return df ("No VCB exchange rate data found for " ++ date) ;;
  return_ (to_json df).

Definition get_vcb_exchange_rate (date : string) : Body :=
  try_except (get_vcb_exchange_rate_try date) (handler "Error fetching VCB exchange rates: ").

(** *** Company information *)

Definition invalid_info_type (info_type : string) : string :=
  "Invalid info_type '" ++ info_type
  ++ "'. Valid types: overview, shareholders, officers, subsidiaries, events, news, reports, ratio_summary, trading_stats".

Definition get_company_info_try (symbol info_type lang : string) : Body :=
  stock env (upper symbol) "VCI" ;;;
  df <- (if info_type =? "overview" then
           request env (Company_overview (upper symbol) "VCI")
         else if info_type =? "shareholders" then
           request env (Company_shareholders (upper symbol) "VCI")
         else if info_type =? "officers" then
           request env (Company_officers (upper symbol) "VCI" "working")
         else if info_type =? "subsidiaries" then
           request env (Company_subsidiaries (upper symbol) "VCI" "all")
         else if info_type =? "events" then
           request env (Company_events (upper symbol) "VCI")
         else if info_type =? "news" then
           request env (Company_news (upper symbol) "VCI")
         else if info_type =? "reports" then
           request env (Company_reports (upper symbol) "VCI")
         else if info_type =? "ratio_summary" then
           request env (Company_ratio_summary (upper symbol) "VCI")
         else if info_type =? "trading_stats" then
           request env (Company_trading_stats (upper symbol) "VCI")
         else
           return_ (Text (invalid_info_type info_type))) ;;
  df <- or_return df ("No " ++ info_type ++ " data found for " ++ symbol) ;;
  return_ (to_json df).

Definition get_company_info (symbol info_type lang : string) : Body :=
  try_except (get_company_info_try symbol info_type lang)
             (handler ("Error fetching " ++ info_type ++ " for " ++ symbol ++ ": ")).

(** *** Funds *)

Definition get_fund_listing_try (fund_type : string) : Body :=
  df <- request env (Fund_listing fund_type) ;;
  df <- or_return df ("No funds found for type: " ++ fund_type) ;;
  return_ (to_json df).

Definition get_fund_listing (fund_type : string) : Body :=
  try_except (get_fund_listing_try fund_type) (handler "Error fetching fund listing: ").

Definition search_funds_try (symbol : string) : Body :=
  df <- request env (Fund_filter symbol) ;;
  df <- or_return df ("No funds found matching: " ++ symbol) ;;
  return_ (to_json df).

Definition search_funds (symbol : string) : Body :=
  try_except (search_funds_try symbol) (handler "Error searching funds: ").

Definition get_fund_nav_report_try (symbol : string) : Body :=
  df <- request env (Fund_nav_report (upper symbol)) ;;
  df <- or_return df ("No NAV data found for fund: " ++ symbol) ;;
  return_ (to_json df).

Definition get_fund_nav_report (symbol : string) : Body :=
  try_except (get_fund_nav_report_try symbol)
             (handler ("Error fetching NAV report for " ++ symbol ++ ": ")).

Definition get_fund_top_holdings_try (symbol : string) : Body :=
  df <- request env (Fund_top_holding (upper symbol)) ;;
  df <- or_return df ("No top holdings data found for fund: " ++ symbol) ;;
  return_ (to_json df).

Definition get_fund_top_holdings (symbol : string) : Body :=
  try_except (get_fund_top_holdings_try symbol)
             (handler ("Error fetching top holdings for " ++ symbol ++ ": ")).

Definition get_fund_industry_allocation_try (symbol : string) : Body :=
  df <- request env (Fund_industry_holding (upper symbol)) ;;
  df <- or_return df ("No industry allocation data found for fund: " ++ symbol) ;;
  return_ (to_json df).

Definition get_fund_industry_allocation (symbol : string) : Body :=
  try_except (get_fund_industry_allocation_try symbol)
             (handler ("Error fetching industry allocation for " ++ symbol ++ ": ")).

Definition get_fund_asset_allocation_try (symbol : string) : Body :=
  df <- request env (Fund_asset_holding (upper symbol)) ;;
  df <- or_return df ("No asset allocation data found for fund: " ++ symbol) ;;
  return_ (to_json df).

Definition get_fund_asset_allocation (symbol : string) : Body :=
  try_except (get_fund_asset_allocation_try symbol)
             (handler ("Error fetching asset allocation for " ++ symbol ++ ": ")).

End Tools.

(* ================================================================== *)
(** ** The portfolio pipeline *)
(* ================================================================== *)

Section Portfolio.

Variable env : Env.

(** [df[["time", "close"]]], [pd.to_datetime] on the [time] column,
    [set_index("time")] and the renaming of [close] to the symbol. *)
Definition time_close (symbol : string) (df : DataFrame) : ext PriceSeries :=
  if has_column "time" df && has_column "close" df then
    ext_bind
      (ext_map (fun r => ext_bind (to_datetime env (row_key "time" r))
                                  (fun t => Ok (t, row_key "close" r))) df)
      (fun s => Ok (symbol, s))
  else Err (mkExn OtherException "['time', 'close'] not in index").

(** One turn of the loop [for symbol in symbols], with its own
    [try]/[except]. *)
Definition fetch_symbol (symbol start_date end_date : string) : IO PriceSeries :=
  try_except
    (df <- request env (Quote_history symbol "VCI" start_date end_date "1D") ;;
     df <- or_return df ("No data found for " ++ symbol ++ " between " ++ start_date
                         ++ " and " ++ end_date) ;;
     lift (time_close symbol df))
    (fun e => return_ (Text ("Error fetching data for " ++ symbol ++ ": " ++ exn_str e))).

(** The loop; [all_data] is the list the loop appends to. *)
Fixpoint fetch_all (symbols : list string) (start_date end_date : string)
                   (all_data : list PriceSeries) : IO (list PriceSeries) :=
  match symbols with
  | [] => ret all_data
  | symbol :: rest =>
      df_clean <- fetch_symbol symbol start_date end_date ;;
      fetch_all rest start_date end_date (all_data ++ [df_clean])
  end.

Definition no_complete_data : string :=
  "No complete data available after cleaning missing values".

(** From [if not all_data] to [if combined_df.empty]. *)
Definition combine (all_data : list PriceSeries) : IO PriceTable :=
  match all_data with
  | [] => return_ (Text "No data found for any symbols")
  | _ :: _ =>
      let combined_df := dropna (concat all_data) in
      if table_empty combined_df
      then return_ (Text no_complete_data)
      else ret combined_df
  end.

(** The fetch-and-clean prologue the three portfolio tools share, line
    for line. *)
Definition price_table (symbols : list string) (start_date end_date : string)
  : IO PriceTable :=
  all_data <- fetch_all symbols start_date end_date [] ;;
  combine all_data.

(** The chain [if covariance_method == ... else ...]. *)
Definition covariance (covariance_method : string) (combined_df : PriceTable)
  : ext Matrix :=
  if covariance_method =? "sample_cov" then sample_cov env combined_df
  else if covariance_method =? "ledoit_wolf" then ledoit_wolf_shrinkage env combined_df
  else if covariance_method =? "exp_cov" then exp_cov env combined_df
  else if covariance_method =? "semicovariance" then semicovariance env combined_df
  else sample_cov env combined_df.

(** Expected returns and the covariance matrix of the cleaned table:
    the lines [optimize_portfolio] and [full_portfolio_optimization]
    share up to the covariance chain. *)
Definition estimates (symbols : list string) (start_date end_date : string)
    (covariance_method : string) (log_returns : bool) : IO (Mu * Matrix) :=
  combined_df <- price_table symbols start_date end_date ;;
  mu <- lift (mean_historical_return env combined_df log_returns) ;;
  S <- lift (covariance covariance_method combined_df) ;;
  ret (mu, S).

(** A fresh frontier, the solve, the metrics, the cleaned weights: the
    block [optimize_portfolio] runs once and
    [full_portfolio_optimization] once per objective. *)
Definition solve_objective (solve : EF env -> ext (EF env)) (mu : Mu) (S : Matrix)
    (risk_free_rate : Q) : ext (Weights * Performance) :=
  ext_bind (EfficientFrontier env mu S) (fun ef =>
  ext_bind (solve ef) (fun ef =>
  ext_bind (portfolio_performance env ef risk_free_rate) (fun performance =>
  ext_bind (clean_weights env ef) (fun clean =>
  Ok (clean, performance))))).

(** Writing a key of a dict: the first position a key took is kept,
    its value replaced. *)
Fixpoint dict_set (k : string) (v : Q) (d : list (string * Q)) : list (string * Q) :=
  match d with
  | [] => [(k, v)]
  | (k', v') :: rest =>
      if k =? k' then (k, v) :: rest else (k', v') :: dict_set k v rest
  end.

(** [mu.to_dict()]: a symbol listed twice leaves one key. *)
Definition to_dict (mu : Mu) : list (string * Q) :=
  fold_left (fun d kv => dict_set (fst kv) (snd kv) d) mu [].

Definition json_weights (w : Weights) : json :=
  JObj (map (fun kv => (fst kv, JNum (snd kv))) w).

(** [{k: round(v, 4) for k, v in clean_weights.items()}] *)
Definition rounded (clean : Weights) : Weights :=
  map (fun kv => (fst kv, pyround (snd kv) 4)) clean.

(** *** calculate_returns *)

Definition calculate_returns_try (symbols : list string)
    (start_date end_date method : string) (log_returns : bool) : Body :=
  combined_df <- price_table symbols start_date end_date ;;
  mu <- lift (mean_historical_return env combined_df log_returns) ;;
  return_ (Json (JObj
    [ ("symbols", JArr (map JStr symbols));
      ("start_date", JStr start_date);
      ("end_date", JStr end_date);
      ("method", JStr method);
      ("log_returns", JBool log_returns);
      ("expected_returns", json_weights (to_dict mu));
      ("frequency", JNum (252 # 1));
      ("compounding", JBool false) ])).

Definition calculate_returns (symbols : list string)
    (start_date end_date method : string) (log_returns : bool) : Body :=
  try_except (calculate_returns_try symbols start_date end_date method log_returns)
             (handler "Error calculating returns: ").

(** *** optimize_portfolio *)

Definition optimize_output (symbols : list string) (start_date end_date : string)
    (risk_free_rate : Q) (covariance_method : string) (log_returns : bool)
    (rounded_weights : Weights) (performance : Performance) : json :=
  JObj
    [ ("symbols", JArr (map JStr symbols));
      ("start_date", JStr start_date);
      ("end_date", JStr end_date);
      ("optimization_type", JStr "max_sharpe");
      ("risk_free_rate", JNum risk_free_rate);
      ("covariance_method", JStr covariance_method);
      ("log_returns", JBool log_returns);
      ("optimal_weights", json_weights rounded_weights);
      ("performance_metrics", JObj
         [ ("expected_annual_return", JNum (pyround (fst (fst performance)) 6));
           ("annual_volatility", JNum (pyround (snd (fst performance)) 6));
           ("sharpe_ratio", JNum (pyround (snd performance) 6)) ]) ].

Definition optimize_portfolio_try (symbols : list string)
    (start_date end_date : string) (risk_free_rate : Q)
    (covariance_method : string) (log_returns : bool) : Body :=
  est <- estimates symbols start_date end_date covariance_method log_returns ;;
  r <- lift (solve_objective (fun ef => max_sharpe env ef risk_free_rate)
               (fst est) (snd est) risk_free_rate) ;;
  return_ (Json (optimize_output symbols start_date end_date risk_free_rate
                   covariance_method log_returns (rounded (fst r)) (snd r))).

(** [except OptimizationError] first, [except Exception] second. *)
Definition optimize_portfolio (symbols : list string)
    (start_date end_date : string) (risk_free_rate : Q)
    (covariance_method : string) (log_returns : bool) : Body :=
  try_except
    (optimize_portfolio_try symbols start_date end_date risk_free_rate
       covariance_method log_returns)
    (fun e => match exn_class e with
              | OptimizationError => handler "Optimization failed: " e
              | OtherException => handler "Error optimizing portfolio: " e
              end).

(** *** full_portfolio_optimization *)

(** [try: m except OptimizationError as e: h e]: any other exception
    keeps propagating. *)
Definition try_except_optimization {A : Type} (m : IO A) (h : exn -> IO A) : IO A :=
  match outcome m with
  | Raise e => match exn_class e with
               | OptimizationError => ((fst m ++ fst (h e))%list, snd (h e))
               | OtherException => m
               end
  | _ => m
  end.

Definition objective_success (name : string) (clean : Weights)
    (performance : Performance) : json :=
  JObj
    [ ("success", JBool true);
      ("weights", json_weights (rounded clean));
      ("expected_annual_return", JNum (pyround (fst (fst performance)) 6));
      ("annual_volatility", JNum (pyround (snd (fst performance)) 6));
      ("sharpe_ratio", JNum (pyround (snd performance) 6));
      ("optimization_type", JStr name) ].

Definition objective_failure (label : string) (e : exn) : json :=
  JObj
    [ ("success", JBool false);
      ("error", JStr (label ++ " optimization failed: " ++ exn_str e)) ].

Definition objective (solve : EF env -> ext (EF env)) (name label : string)
    (mu : Mu) (S : Matrix) (risk_free_rate : Q) : IO json :=
  try_except_optimization
    (r <- lift (solve_objective solve mu S risk_free_rate) ;;
     ret (objective_success name (fst r) (snd r)))
    (fun e => ret (objective_failure label e)).

Fixpoint dict_get (k : string) (fields : list (string * json)) : option json :=
  match fields with
  | [] => None
  | (k', v) :: rest => if k =? k' then Some v else dict_get k rest
  end.

(** [v.get("success", False)] *)
Definition succeeded (v : json) : bool :=
  match v with
  | JObj fields => match dict_get "success" fields with
                   | Some (JBool b) => b
                   | _ => false
                   end
  | _ => false
  end.

(** [[k for k, v in optimizations.items() if v.get("success", False)]] *)
Definition successful_opts (optimizations : list (string * json)) : list string :=
  map fst (filter (fun kv => succeeded (snd kv)) optimizations).

Definition full_output (symbols : list string) (start_date end_date : string)
    (risk_free_rate risk_aversion : Q) (covariance_method : string)
    (log_returns : bool) (optimizations : list (string * json)) : json :=
  JObj
    [ ("symbols", JArr (map JStr symbols));
      ("start_date", JStr start_date);
      ("end_date", JStr end_date);
      ("risk_free_rate", JNum risk_free_rate);
      ("risk_aversion", JNum risk_aversion);
      ("covariance_method", JStr covariance_method);
      ("log_returns", JBool log_returns);
      ("optimized_portfolios", JObj optimizations);
      ("summary", JObj
         [ ("total_portfolios",
            JNum (inject_Z (Z.of_nat (List.length (successful_opts optimizations)))));
           ("successful_optimizations",
            JArr (map JStr (successful_opts optimizations))) ]) ].

(** The three objectives in source order, each writing its entry of
    [optimizations]. *)
Definition run_objectives (mu : Mu) (S : Matrix) (risk_free_rate risk_aversion : Q)
  : IO (list (string * json)) :=
  sharpe <- objective (fun ef => max_sharpe env ef risk_free_rate)
                      "max_sharpe" "Max Sharpe" mu S risk_free_rate ;;
  minvol <- objective (min_volatility env)
                      "min_volatility" "Min volatility" mu S risk_free_rate ;;
  utility <- objective (fun ef => max_quadratic_utility env ef risk_aversion)
                       "max_utility" "Max utility" mu S risk_free_rate ;;
  ret [ ("max_sharpe", sharpe); ("min_volatility", minvol); ("max_utility", utility) ].

Definition full_portfolio_optimization_try (symbols : list string)
    (start_date end_date : string) (risk_free_rate risk_aversion : Q)
    (covariance_method : string) (log_returns : bool) : Body :=
  est <- estimates symbols start_date end_date covariance_method log_returns ;;
  optimizations <- run_objectives (fst est) (snd est) risk_free_rate risk_aversion ;;
  return_ (Json (full_output symbols start_date end_date risk_free_rate
                   risk_aversion covariance_method log_returns optimizations)).

Definition full_portfolio_optimization (symbols : list string)
    (start_date end_date : string) (risk_free_rate risk_aversion : Q)
    (covariance_method : string) (log_returns : bool) : Body :=
  try_except
    (full_portfolio_optimization_try symbols start_date end_date risk_free_rate
       risk_aversion covariance_method log_returns)
    (handler "Error in full portfolio optimization: ").

End Portfolio.

(* ================================================================== *)
(** ** The tool registry *)
(* ================================================================== *)

(** One constructor per function decorated with [@mcp.tool()], with the
    arguments of the call. *)
Inductive ToolCall : Type :=
| GetStockHistory (symbol start_date end_date interval : string)
| GetForexHistory (symbol start_date end_date interval : string)
| GetCryptoHistory (symbol start_date end_date interval : string)
| GetIndexHistory (symbol start_date end_date interval : string)
| GetIncomeStatement (symbol lang : string)
| GetBalanceSheet (symbol lang : string)
| GetCashFlow (symbol lang : string)
| GetFinancialRatios (symbol lang : string)
| GetDividendHistory (symbol : string)
| GetSjcGoldPrice (date : option string)
| GetBtmcGoldPrice
| GetVcbExchangeRate (date : string)
| GetCompanyInfo (symbol info_type lang : string)
| CalculateReturns (symbols : list string) (start_date end_date method : string)
                   (log_returns : bool)
| OptimizePortfolio (symbols : list string) (start_date end_date : string)
                    (risk_free_rate : Q) (covariance_method : string)
                    (log_returns : bool)
| FullPortfolioOptimization (symbols : list string) (start_date end_date : string)
                            (risk_free_rate risk_aversion : Q)
                            (covariance_method : string) (log_returns : bool)
| GetFundListing (fund_type : string)
| SearchFunds (symbol : string)
| GetFundNavReport (symbol : string)
| GetFundTopHoldings (symbol : string)
| GetFundIndustryAllocation (symbol : string)
| GetFundAssetAllocation (symbol : string).

Definition call_tool (env : Env) (t : ToolCall) : Body :=
  match t with
  | GetStockHistory s a b i => get_stock_history env s a b i
  | GetForexHistory s a b i => get_forex_history env s a b i
  | GetCryptoHistory s a b i => get_crypto_history env s a b i
  | GetIndexHistory s a b i => get_index_history env s a b i
  | GetIncomeStatement s l => get_income_statement env s l
  | GetBalanceSheet s l => get_balance_sheet env s l
  | GetCashFlow s l => get_cash_flow env s l
  | GetFinancialRatios s l => get_financial_ratios env s l
  | GetDividendHistory s => get_dividend_history env s
  | GetSjcGoldPrice d => get_sjc_gold_price env d
  | GetBtmcGoldPrice => get_btmc_gold_price env
  | GetVcbExchangeRate d => get_vcb_exchange_rate env d
  | GetCompanyInfo s i l => get_company_info env s i l
  | CalculateReturns ss a b m lg => calculate_returns env ss a b m lg
  | OptimizePortfolio ss a b rf cm lg => optimize_portfolio env ss a b rf cm lg
  | FullPortfolioOptimization ss a b rf ra cm lg =>
      full_portfolio_optimization env ss a b rf ra cm lg
  | GetFundListing ft => get_fund_listing env ft
  | SearchFunds s => search_funds env s
  | GetFundNavReport s => get_fund_nav_report env s
  | GetFundTopHoldings s => get_fund_top_holdings env s
  | GetFundIndustryAllocation s => get_fund_industry_allocation env s
  | GetFundAssetAllocation s => get_fund_asset_allocation env s
  end.

(** The outermost [try] block of each tool. *)
Definition try_block (env : Env) (t : ToolCall) : Body :=
  match t with
  | GetStockHistory s a b i => get_stock_history_try env s a b i
  | GetForexHistory s a b i => get_forex_history_try env s a b i
  | GetCryptoHistory s a b i => get_crypto_history_try env s a b i
  | GetIndexHistory s a b i => get_index_history_try env s a b i
  | GetIncomeStatement s l => get_income_statement_try env s l
  | GetBalanceSheet s l => get_balance_sheet_try env s l
  | GetCashFlow s l => get_cash_flow_try env s l
  | GetFinancialRatios s l => get_financial_ratios_try env s l
  | GetDividendHistory s => get_dividend_history_try env s
  | GetSjcGoldPrice d => get_sjc_gold_price_try env d
  | GetBtmcGoldPrice => get_btmc_gold_price_try env
  | GetVcbExchangeRate d => get_vcb_exchange_rate_try env d
  | GetCompanyInfo s i l => get_company_info_try env s i l
  | CalculateReturns ss a b m lg => calculate_returns_try env ss a b m lg
  | OptimizePortfolio ss a b rf cm lg => optimize_portfolio_try env ss a b rf cm lg
  | FullPortfolioOptimization ss a b rf ra cm lg =>
      full_portfolio_optimization_try env ss a b rf ra cm lg
  | GetFundListing ft => get_fund_listing_try env ft
  | SearchFunds s => search_funds_try env s
  | GetFundNavReport s => get_fund_nav_report_try env s
  | GetFundTopHoldings s => get_fund_top_holdings_try env s
  | GetFundIndustryAllocation s => get_fund_industry_allocation_try env s
  | GetFundAssetAllocation s => get_fund_asset_allocation_try env s
  end.

Definition is_optimize_portfolio (t : ToolCall) : bool :=
  match t with
  | OptimizePortfolio _ _ _ _ _ _ => true
  | _ => false
  end.

(* ================================================================== *)
(** ** Vocabulary of the properties *)
(* ================================================================== *)

Definition is_optimization_error (e : exn) : bool :=
  match exn_class e with
  | OptimizationError => true
  | OtherException => false
  end.

(** The message shape ["Error <doing something>: <message>"]. *)
Definition error_form (s message : string) : Prop :=
  exists doing, s = "Error " ++ doing ++ ": " ++ message.

(** The operation each tool names in its error message. *)
Definition doing (t : ToolCall) : string :=
  match t with
  | GetStockHistory _ _ _ _ => "fetching stock data"
  | GetForexHistory _ _ _ _ => "fetching forex data"
  | GetCryptoHistory _ _ _ _ => "fetching crypto data"
  | GetIndexHistory _ _ _ _ => "fetching index data"
  | GetIncomeStatement s _ => "fetching income statement for " ++ s
  | GetBalanceSheet s _ => "fetching balance sheet for " ++ s
  | GetCashFlow s _ => "fetching cash flow for " ++ s
  | GetFinancialRatios s _ => "fetching financial ratios for " ++ s
  | GetDividendHistory s => "fetching dividend history for " ++ s
  | GetSjcGoldPrice _ => "fetching SJC gold prices"
  | GetBtmcGoldPrice => "fetching BTMC gold prices"
  | GetVcbExchangeRate _ => "fetching VCB exchange rates"
  | GetCompanyInfo s i _ => "fetching " ++ i ++ " for " ++ s
  | CalculateReturns _ _ _ _ _ => "calculating returns"
  | OptimizePortfolio _ _ _ _ _ _ => "optimizing portfolio"
  | FullPortfolioOptimization _ _ _ _ _ _ _ => "in full portfolio optimization"
  | GetFundListing _ => "fetching fund listing"
  | SearchFunds _ => "searching funds"
  | GetFundNavReport s => "fetching NAV report for " ++ s
  | GetFundTopHoldings s => "fetching top holdings for " ++ s
  | GetFundIndustryAllocation s => "fetching industry allocation for " ++ s
  | GetFundAssetAllocation s => "fetching asset allocation for " ++ s
  end.

Definition valid_info_types : list string :=
  ["overview"; "shareholders"; "officers"; "subsidiaries"; "events"; "news";
   "reports"; "ratio_summary"; "trading_stats"].

Definition covariance_methods : list string :=
  ["sample_cov"; "ledoit_wolf"; "exp_cov"; "semicovariance"].

(** The request the portfolio loop issues for one symbol. *)
Definition price_request (start_date end_date symbol : string) : Event :=
  Fetch (Quote_history symbol "VCI" start_date end_date "1D").

(** The ways one turn of the portfolio loop fails, with the message it
    returns. *)
Inductive fetch_fails (env : Env) (symbol start_date end_date : string)
  : string -> Prop :=
| fails_error (e : exn) :
    data_source env (Quote_history symbol "VCI" start_date end_date "1D") = Err e ->
    fetch_fails env symbol start_date end_date
      ("Error fetching data for " ++ symbol ++ ": " ++ exn_str e)
| fails_none :
    data_source env (Quote_history symbol "VCI" start_date end_date "1D") = Ok None ->
    fetch_fails env symbol start_date end_date
      ("No data found for " ++ symbol ++ " between " ++ start_date
       ++ " and " ++ end_date)
| fails_empty :
    data_source env (Quote_history symbol "VCI" start_date end_date "1D")
      = Ok (Some []) ->
    fetch_fails env symbol start_date end_date
      ("No data found for " ++ symbol ++ " between " ++ start_date
       ++ " and " ++ end_date).

Definition fetch_succeeds (env : Env) (symbol start_date end_date : string) : Prop :=
  exists series, outcome (fetch_symbol env symbol start_date end_date) = Val series.

Definition dates (s : PriceSeries) : list Z := map fst (snd s).

Definition sum_weights (w : Weights) : Q :=
  fold_right (fun kv acc => (snd kv + acc)%Q) 0%Q w.

Definition non_negative (w : Weights) : Prop :=
  Forall (fun kv => (0 <= snd kv)%Q) w.

(** Sum within 0.0001 per asset of 1.0. *)
Definition within_tolerance (w : Weights) : Prop :=
  (Qabs (sum_weights w - 1) <= (1 # 10000) * inject_Z (Z.of_nat (List.length w)))%Q.

(** The returned weight [w] is the cleaned weight [c] rounded to four
    decimals: it stays under its symbol, is not negative if [c] is
    not, lies less than 0.0001 from [c], and is a multiple of 0.0001
    (up to 10^-12). *)
Definition rounds (c w : string * Q) : Prop :=
  fst w = fst c /\
  ((0 <= snd c)%Q -> (0 <= snd w)%Q) /\
  (Qabs (snd w - snd c) <= 1 # 10000)%Q /\
  exists k : Z, (Qabs (snd w - (k # 10000)) <= 1 # 1000000000000)%Q.

(** The returned weights are the cleaned ones, each rounded, and their
    sum is that of the cleaned ones within 0.0001 per asset. *)
Definition rounded_from (clean returned : Weights) : Prop :=
  Forall2 rounds clean returned /\
  (Qabs (sum_weights returned - sum_weights clean)
   <= (1 # 10000) * inject_Z (Z.of_nat (List.length clean)))%Q.

(** Row [r1] does not come after row [r2] in the order of column [col]. *)
Definition key_le (col : string) (r1 r2 : Row) : Prop :=
  cell_leb (row_key col r1) (row_key col r2) = true.

Definition year_le : Row -> Row -> Prop := key_le "yearReport".

(** A reply that is the JSON records of a frame sorted by year, the
    frame being a rearrangement of what the request [r] delivered. *)
Definition sorted_statement (env : Env) (r : Request) (j : json) : Prop :=
  exists fetched df,
    data_source env r = Ok (Some fetched) /\
    Permutation fetched df /\
    Sorted year_le df /\
    j = JArr (map row_json df).

(** The entry of [optimizations] an objective leaves behind. *)
Definition entry (name label : string) (r : ext (Weights * Performance)) : json :=
  match r with
  | Ok (clean, performance) => objective_success name clean performance
  | Err e => objective_failure label e
  end.

Definition solved {A : Type} (r : ext A) : bool :=
  match r with
  | Ok _ => true
  | Err _ => false
  end.

(** Two replies that are equal messages, or the JSON of the same
    payload under the method named in the call and under
    ["sample_cov"]. *)
Definition same_up_to_echo {P : Type} (out : string -> P -> json)
    (covariance_method : string) (b1 b2 : Body) : Prop :=
  trace b1 = trace b2 /\
  match outcome b1, outcome b2 with
  | Return (Text m1), Return (Text m2) => m1 = m2
  | Return (Json j1), Return (Json j2) =>
      exists p, j1 = out covariance_method p /\ j2 = out "sample_cov" p
  | _, _ => False
  end.

(** The exception of an objective that its own handler lets through. *)
Definition other_exception {A : Type} (r : ext A) : option exn :=
  match r with
  | Ok _ => None
  | Err e => if is_optimization_error e then None else Some e
  end.

Fixpoint first_other_exception {A : Type} (rs : list (ext A)) : option exn :=
  match rs with
  | [] => None
  | r :: rest =>
      match other_exception r with
      | Some e => Some e
      | None => first_other_exception rest
      end
  end.

(** Two replies of a tool that differ at most in the symbol they quote. *)
Definition agree_up_to_symbol (s : string) (b1 b2 : Body) : Prop :=
  trace b1 = trace b2 /\
  match outcome b1, outcome b2 with
  | Return (Json j1), Return (Json j2) => j1 = j2
  | Return (Text m1), Return (Text m2) =>
      m1 = m2 \/
      exists pre post, m1 = pre ++ s ++ post /\ m2 = pre ++ upper s ++ post
  | _, _ => False
  end.

(** The three portfolio tools, called on the same symbols and dates,
    all end as [b]: same requests issued, same reply. *)
Definition portfolio_tools_end (env : Env) (symbols : list string)
    (start_date end_date : string) (b : Body) : Prop :=
  (forall method log_returns,
      calculate_returns env symbols start_date end_date method log_returns = b) /\
  (forall risk_free_rate covariance_method log_returns,
      optimize_portfolio env symbols start_date end_date risk_free_rate
        covariance_method log_returns = b) /\
  (forall risk_free_rate risk_aversion covariance_method log_returns,
      full_portfolio_optimization env symbols start_date end_date risk_free_rate
        risk_aversion covariance_method log_returns = b).

(** The requests the three portfolio tools issue, whatever their other
    arguments. *)
Definition portfolio_tools_trace (env : Env) (symbols : list string)
    (start_date end_date : string) (t : list Event) : Prop :=
  (forall method log_returns,
      trace (calculate_returns env symbols start_date end_date method log_returns)
      = t) /\
  (forall risk_free_rate covariance_method log_returns,
      trace (optimize_portfolio env symbols start_date end_date risk_free_rate
               covariance_method log_returns) = t) /\
  (forall risk_free_rate risk_aversion covariance_method log_returns,
      trace (full_portfolio_optimization env symbols start_date end_date
               risk_free_rate risk_aversion covariance_method log_returns) = t).

Definition no_missing_cell (t : PriceTable) : Prop :=
  Forall (fun r => Forall (fun c => c <> NaN) (snd r)) (rows t).

(* ================================================================== *)
(** ** A sample market, for the worked examples *)
(* ================================================================== *)

Definition price_frame (ds : list Z) : DataFrame :=
  map (fun d => [("time", Num (inject_Z d)); ("close", Num (inject_Z (100 + d)))]) ds.

Definition sample_prices (symbol : string) : option DataFrame :=
  if symbol =? "AAA" then Some (price_frame [1; 2; 3]%Z)
  else if symbol =? "BBB" then Some (price_frame [2; 3; 4]%Z)
  else if symbol =? "CCC" then Some (price_frame [7; 8]%Z)
  else None.

Definition sample_statement : DataFrame :=
  [ [("yearReport", Num (2023 # 1)); ("Revenue", Num (30 # 1))];
    [("yearReport", Num (2021 # 1)); ("Revenue", Num (10 # 1))];
    [("yearReport", Num (2022 # 1)); ("Revenue", Num (20 # 1))] ].

Definition sample_source (r : Request) : ext (option DataFrame) :=
  match r with
  | Quote_history s _ _ _ _ =>
      if s =? "DOWN" then Err (mkExn OtherException "connection refused")
      else Ok (sample_prices s)
  | Finance_income_statement s _ _ _
  | Finance_balance_sheet s _ _ _
  | Finance_cash_flow s _ _ _ =>
      if s =? "VCI" then Ok (Some sample_statement) else Ok None
  | _ => Ok None
  end.

(** The solved state of the sample optimiser: which objective ran. *)
Inductive SampleEF : Type := Unsolved | Sharpe | MinVol | Utility.

Definition sample_weights (ef : SampleEF) : Weights :=
  match ef with
  | Sharpe => [("AAA", 1 # 3); ("BBB", 2 # 3)]
  | MinVol => [("AAA", 1 # 2); ("BBB", 1 # 2)]
  | _ => [("AAA", 1 # 1); ("BBB", 0 # 1)]
  end.

(** The sample market; [init] is what creating a stock handle does and
    [sharpe_error] what the maximum-Sharpe solve raises, if anything. *)
Definition sample_env (init : ext unit) (sharpe_error : option exn) : Env :=
  {| vnstock_stock := fun _ _ => init;
     data_source := sample_source;
     flatten_hierarchical_index := fun df => Ok df;
     to_datetime := fun c =>
       match c with
       | Num q => Ok (Qfloor q)
       | _ => Err (mkExn OtherException "Unknown datetime string format")
       end;
     mean_historical_return := fun t _ => Ok (map (fun c => (c, 1 # 10)) (columns t));
     sample_cov := fun _ => Ok [[1 # 1]];
     ledoit_wolf_shrinkage := fun _ => Ok [[2 # 1]];
     exp_cov := fun _ => Ok [[3 # 1]];
     semicovariance := fun _ => Ok [[4 # 1]];
     EF := SampleEF;
     EfficientFrontier := fun _ _ => Ok Unsolved;
     max_sharpe := fun _ _ =>
       match sharpe_error with
       | Some e => Err e
       | None => Ok Sharpe
       end;
     min_volatility := fun _ => Ok MinVol;
     max_quadratic_utility := fun _ _ => Ok Utility;
     portfolio_performance := fun _ _ => Ok (12 # 100, 20 # 100, 1 # 2);
     clean_weights := fun ef => Ok (sample_weights ef) |}.

Definition calm : Env := sample_env (Ok tt) None.

Definition infeasible : exn := mkExn OptimizationError "infeasible".

Definition below_risk_free : exn :=
  mkExn OtherException
    "at least one of the assets must have an expected return exceeding the risk-free rate".

Definition sample_series (symbol : string) (ds : list Z) : PriceSeries :=
  (symbol, map (fun d => (d, Num (inject_Z (100 + d)))) ds).

(** The sample market with no stock handle to be had. *)
Definition unreachable : Env :=
  sample_env (Err (mkExn OtherException "boom")) None.

(** The sample market where the maximum-Sharpe problem is infeasible. *)
Definition stalled : Env := sample_env (Ok tt) (Some infeasible).

(** The sample market where no asset beats the risk-free rate. *)
Definition starved : Env := sample_env (Ok tt) (Some below_risk_free).

Definition sample_requests : list Event :=
  [ price_request "2024-01-01" "2024-01-31" "AAA";
    price_request "2024-01-01" "2024-01-31" "BBB" ].

Definition sample_mu : Mu := [("AAA", 1 # 10); ("BBB", 1 # 10)].

(* ================================================================== *)
(** ** Vocabulary of further properties *)
(* ================================================================== *)

(** The most requests a call may send to the market-data library. *)
Definition request_budget (t : ToolCall) : nat :=
  match t with
  | CalculateReturns symbols _ _ _ _
  | OptimizePortfolio symbols _ _ _ _ _
  | FullPortfolioOptimization symbols _ _ _ _ _ _ => List.length symbols
  | GetIncomeStatement _ _ | GetBalanceSheet _ _ | GetCashFlow _ _
  | GetFinancialRatios _ _ | GetDividendHistory _ | GetCompanyInfo _ _ _ => 2
  | _ => 1
  end.

(** The tools whose JSON is the records of a fetched frame: all but the
    portfolio tools and [get_financial_ratios], which flattens first. *)
Definition returns_fetched_frame (t : ToolCall) : bool :=
  match t with
  | CalculateReturns _ _ _ _ _
  | OptimizePortfolio _ _ _ _ _ _
  | FullPortfolioOptimization _ _ _ _ _ _ _
  | GetFinancialRatios _ _ => false
  | _ => true
  end.

(** The three statements, which sort what they fetched. *)
Definition sorts_by_year (t : ToolCall) : bool :=
  match t with
  | GetIncomeStatement _ _ | GetBalanceSheet _ _ | GetCashFlow _ _ => true
  | _ => false
  end.

(** A block that, when it yields a frame, has requested it, and that
    returns nothing but messages. *)
Definition fetched_by (env : Env) (req : IO (option DataFrame)) : Prop :=
  (forall df, outcome req = Val df ->
     exists r, In (Fetch r) (trace req) /\ data_source env r = Ok df) /\
  (forall reply, outcome req = Return reply -> exists msg, reply = Text msg).

(** A JSON value that is the records of the fetched frame [fetched],
    in the order [df]. *)
Definition frame_reply (env : Env) (requests : list Event) (keeps_order : bool)
    (j : json) : Prop :=
  exists r row rest df,
    In (Fetch r) requests /\
    data_source env r = Ok (Some (row :: rest)) /\
    Permutation (row :: rest) df /\
    (keeps_order = true -> df = row :: rest) /\
    j = JArr (map row_json df).

(** The dict [calculate_returns] serialises. *)
Definition returns_output (symbols : list string) (start_date end_date method : string)
    (log_returns : bool) (mu : Mu) : json :=
  JObj
    [ ("symbols", JArr (map JStr symbols));
      ("start_date", JStr start_date);
      ("end_date", JStr end_date);
      ("method", JStr method);
      ("log_returns", JBool log_returns);
      ("expected_returns", json_weights (to_dict mu));
      ("frequency", JNum (252 # 1));
      ("compounding", JBool false) ].

(** Two runs that send the same requests and return the same message,
    or the JSON of one payload under two renderings. *)
Definition same_payload {P : Type} (out1 out2 : P -> json) (b1 b2 : Body) : Prop :=
  trace b1 = trace b2 /\
  match outcome b1, outcome b2 with
  | Return (Text m1), Return (Text m2) => m1 = m2
  | Return (Json j1), Return (Json j2) => exists p, j1 = out1 p /\ j2 = out2 p
  | _, _ => False
  end.

(** How every message of the server begins. *)
Definition known_opening (s : string) : bool :=
  String.prefix "No " s || String.prefix "Error " s
  || String.prefix "Invalid info_type '" s
  || String.prefix "Optimization failed: " s.

(** A block whose messages all begin in a known way. *)
Definition well_spoken {A : Type} (b : IO A) : Prop :=
  forall s, outcome b = Return (Text s) -> known_opening s = true.

(** What [get_sjc_gold_price] calls the date in its message. *)
Definition date_label (date : option string) : string :=
  match date with
  | None => "current date"
  | Some d => if d =? "" then "current date" else d
  end.

(** A second sample market: the source is a parameter, and the three
    solves are feasible or all infeasible. *)
Definition market (source : Request -> ext (option DataFrame)) (feasible : bool)
  : Env :=
  {| vnstock_stock := fun _ _ => Ok tt;
     data_source := source;
     flatten_hierarchical_index := fun df => Ok df;
     to_datetime := fun c =>
       match c with
       | Num q => Ok (Qfloor q)
       | _ => Err (mkExn OtherException "Unknown datetime string format")
       end;
     mean_historical_return := fun t _ => Ok (map (fun c => (c, 1 # 10)) (columns t));
     sample_cov := fun _ => Ok [[1 # 1]];
     ledoit_wolf_shrinkage := fun _ => Ok [[2 # 1]];
     exp_cov := fun _ => Ok [[3 # 1]];
     semicovariance := fun _ => Ok [[4 # 1]];
     EF := SampleEF;
     EfficientFrontier := fun _ _ => Ok Unsolved;
     max_sharpe := fun _ _ => if feasible then Ok Sharpe else Err infeasible;
     min_volatility := fun _ => if feasible then Ok MinVol else Err infeasible;
     max_quadratic_utility := fun _ _ =>
       if feasible then Ok Utility else Err infeasible;
     portfolio_performance := fun _ _ => Ok (12 # 100, 20 # 100, 1 # 2);
     clean_weights := fun ef => Ok (sample_weights ef) |}.

Definition skewed_weights : Weights := [("AAA", -1 # 100); ("BBB", 1 # 2)].

(** The sample market with an optimiser whose cleaned weights keep a
    short position and do not sum to one. *)
Definition skewed : Env :=
  {| vnstock_stock := fun _ _ => Ok tt;
     data_source := sample_source;
     flatten_hierarchical_index := fun df => Ok df;
     to_datetime := fun c =>
       match c with
       | Num q => Ok (Qfloor q)
       | _ => Err (mkExn OtherException "Unknown datetime string format")
       end;
     mean_historical_return := fun t _ => Ok (map (fun c => (c, 1 # 10)) (columns t));
     sample_cov := fun _ => Ok [[1 # 1]];
     ledoit_wolf_shrinkage := fun _ => Ok [[2 # 1]];
     exp_cov := fun _ => Ok [[3 # 1]];
     semicovariance := fun _ => Ok [[4 # 1]];
     EF := SampleEF;
     EfficientFrontier := fun _ _ => Ok Unsolved;
     max_sharpe := fun _ _ => Ok Sharpe;
     min_volatility := fun _ => Ok MinVol;
     max_quadratic_utility := fun _ _ => Ok Utility;
     portfolio_performance := fun _ _ => Ok (12 # 100, 20 # 100, 1 # 2);
     clean_weights := fun _ => Ok skewed_weights |}.

Definition unsorted_ratios : DataFrame :=
  [ [("Revenue", Num (30 # 1))]; [("Revenue", Num (10 # 1))] ].

(** A source whose statements lack the year column and whose price
    frames lack the closing price. *)
Definition odd_source (r : Request) : ext (option DataFrame) :=
  match r with
  | Finance_income_statement _ _ _ _
  | Finance_balance_sheet _ _ _ _
  | Finance_cash_flow _ _ _ _ => Ok (Some unsorted_ratios)
  | Finance_ratio s _ _ _ =>
      if s =? "VCI" then Ok (Some sample_statement) else Ok (Some unsorted_ratios)
  | Quote_history _ _ _ _ _ =>
      Ok (Some [ [("time", Num (1 # 1)); ("open", Num (5 # 1))] ])
  | _ => Ok None
  end.

Definition odd : Env := market odd_source true.

Definition all_infeasible : Env := market sample_source false.

(* ================================================================== *)
(** ** Control-flow lemmas *)
(* ================================================================== *)

(** A handler that always returns turns every block into one that
    returns. *)
Lemma try_except_returns (b : Body) (h : exn -> Body) :
  (forall e, exists r, outcome (h e) = Return r) ->
  exists r, returned (try_except b h) = Ok r.
Proof.
  intros Hh. unfold returned, try_except, outcome in *.
  destruct b as [t [v | r | e]]; simpl.
  - destruct v.
  - exists r. reflexivity.
  - destruct (Hh e) as [r Hr]. rewrite Hr. exists r. reflexivity.
Qed.

Lemma try_except_raise (b : Body) (h : exn -> Body) (e : exn) :
  outcome b = Raise e ->
  returned (try_except b h) = returned (h e).
Proof.
  unfold returned, try_except, outcome. intros ->. reflexivity.
Qed.

Lemma handler_returns (prefix : string) (e : exn) :
  outcome (handler prefix e) = Return (Text (prefix ++ exn_str e)).
Proof. reflexivity. Qed.

(** The empty check lets through exactly the frames with a row and a
    column. *)
Lemma or_return_ends (df : option DataFrame) (msg : string) :
  or_return df msg = return_ (Text msg) \/
  exists row rest,
    df = Some (row :: rest) /\ row <> [] /\ or_return df msg = ret (row :: rest).
Proof.
  destruct df as [[| [| c row] rest] |]; simpl; auto.
  right. exists (c :: row), rest. repeat split. discriminate.
Qed.

Lemma sort_values_ok (col : string) (df sorted : DataFrame) :
  sort_values col df = Ok sorted ->
  sorted = sort_rows col df /\ has_column col df = true
  /\ mixed_column col df = false.
Proof.
  unfold sort_values.
  destruct (has_column col df); [| discriminate].
  destruct (mixed_column col df); [discriminate |].
  intros H. inversion H. auto.
Qed.

Lemma bind_return {A B : Type} (m : IO A) (k : A -> IO B) (t : list Event) (r : Reply) :
  m = (t, Return r) -> bind m k = (t, Return r).
Proof. intros ->. reflexivity. Qed.

Lemma bind_val {A B : Type} (m : IO A) (k : A -> IO B) (t : list Event) (a : A) :
  m = (t, Val a) -> bind m k = ((t ++ trace (k a))%list, outcome (k a)).
Proof. intros ->. reflexivity. Qed.

(* ================================================================== *)
(** ** The joined and cleaned price table *)
(* ================================================================== *)

Lemma insert_date_In (d y : Z) (l : list Z) :
  In y (insert_date d l) <-> y = d \/ In y l.
Proof.
  induction l as [| x l IH]; simpl.
  - intuition.
  - destruct (Z.ltb_spec d x); [simpl; intuition |].
    destruct (Z.eqb_spec d x); [subst; simpl; intuition |].
    simpl. rewrite IH. intuition.
Qed.

Lemma insert_date_sorted (d : Z) (l : list Z) :
  StronglySorted Z.lt l -> StronglySorted Z.lt (insert_date d l).
Proof.
  induction l as [| x l IH]; simpl; intros Hs.
  - repeat constructor.
  - apply StronglySorted_inv in Hs as [Hl Hx].
    destruct (Z.ltb_spec d x) as [Hdx | Hdx].
    + constructor; [constructor; assumption |].
      constructor; [assumption |].
      eapply Forall_impl; [| exact Hx]. intros a Ha. simpl in Ha. lia.
    + destruct (Z.eqb_spec d x) as [-> | Hne].
      * constructor; assumption.
      * constructor; [apply IH; assumption |].
        apply Forall_forall. intros y Hy.
        apply insert_date_In in Hy as [-> | Hy]; [lia |].
        rewrite Forall_forall in Hx. apply Hx. assumption.
Qed.

Lemma sorted_NoDup (l : list Z) : StronglySorted Z.lt l -> NoDup l.
Proof.
  induction 1 as [| x l Hs IH Hx]; constructor; [| assumption].
  intros Hin. rewrite Forall_forall in Hx. specialize (Hx x Hin). lia.
Qed.

Lemma index_union_sorted (all_data : list PriceSeries) :
  StronglySorted Z.lt (index_union all_data).
Proof.
  unfold index_union.
  induction (flat_map (fun s => map fst (snd s)) all_data) as [| d l IH]; simpl.
  - constructor.
  - apply insert_date_sorted, IH.
Qed.

Lemma cell_at_present (d : Z) (s : list (Z * Cell)) :
  cell_at d s <> NaN -> In d (map fst s).
Proof.
  induction s as [| [d' c] s IH]; simpl; intros H.
  - contradiction H. reflexivity.
  - destruct (Z.eqb_spec d d'); [left; congruence | right; apply IH, H].
Qed.

Lemma complete_row_cells (r : Z * list Cell) :
  complete_row r = true <-> Forall (fun c => c <> NaN) (snd r).
Proof.
  unfold complete_row. rewrite forallb_forall, Forall_forall.
  split; intros H c Hc; specialize (H c Hc); destruct c; simpl in *; congruence.
Qed.

(** The dates that survive [dropna] are dates of every series. *)
Lemma cleaned_dates (all_data : list PriceSeries) (s : PriceSeries) (d : Z) :
  In s all_data ->
  In d (map fst (rows (dropna (concat all_data)))) ->
  In d (dates s).
Proof.
  intros Hs Hd. apply in_map_iff in Hd as [[d' cells] [Heq Hr]].
  simpl in Heq. subst d'. simpl in Hr.
  apply filter_In in Hr as [Hr Hc].
  apply in_map_iff in Hr as [d0 [Heq _]]. inversion Heq; subst d0 cells; clear Heq.
  apply complete_row_cells in Hc. simpl in Hc.
  rewrite Forall_forall in Hc.
  apply cell_at_present, Hc.
  apply in_map_iff. exists s. split; [reflexivity | assumption].
Qed.

Lemma cleaned_dates_NoDup (all_data : list PriceSeries) :
  NoDup (map fst (rows (dropna (concat all_data)))).
Proof.
  simpl.
  assert (H : forall idx,
             NoDup idx ->
             NoDup (map fst (filter complete_row
               (map (fun d => (d, map (fun s : PriceSeries => cell_at d (snd s)) all_data))
                    idx)))).
  { induction idx as [| d idx IH]; simpl; intros Hn; [constructor |].
    inversion Hn as [| ? ? Hd Hn']; subst.
    destruct (complete_row _); simpl; [constructor |]; auto.
    intros Hin. apply Hd.
    apply in_map_iff in Hin as [[d' c] [Heq Hin]]. simpl in Heq. subst d'.
    apply filter_In in Hin as [Hin _].
    apply in_map_iff in Hin as [d0 [Heq Hin]]. inversion Heq; subst. assumption. }
  apply H, sorted_NoDup, index_union_sorted.
Qed.

Lemma cleaned_no_missing (all_data : list PriceSeries) :
  no_missing_cell (dropna (concat all_data)).
Proof.
  unfold no_missing_cell. simpl. apply Forall_forall. intros r Hr.
  apply filter_In in Hr as [_ Hc]. apply complete_row_cells, Hc.
Qed.

(** C8.  For every list of per-symbol price series, the cleaned price
    table (outer join on date, then every row with a missing value
    dropped) has at most as many rows as each individual series, the
    shortest one included, and no cell of it is missing. *)
Theorem cleaned_table_bounded (all_data : list PriceSeries) :
  (forall s, In s all_data ->
     (List.length (rows (dropna (concat all_data))) <= List.length (snd s))%nat) /\
  no_missing_cell (dropna (concat all_data)).
Proof.
  split; [| apply cleaned_no_missing].
  intros s Hs.
  rewrite <- (length_map fst (rows (dropna (concat all_data)))).
  rewrite <- (length_map fst (snd s)).
  apply NoDup_incl_length; [apply cleaned_dates_NoDup |].
  intros d Hd. exact (cleaned_dates all_data s d Hs Hd).
Qed.

(* ================================================================== *)
(** ** The fetch loop *)
(* ================================================================== *)

Section FetchLoop.

Variable env : Env.
Variables start_date end_date : string.

Lemma fetch_symbol_trace (symbol : string) :
  trace (fetch_symbol env symbol start_date end_date)
  = [price_request start_date end_date symbol].
Proof.
  unfold fetch_symbol, request, price_request, try_except, bind, trace, outcome.
  destruct (data_source env _) as [[[| [| c r] l] |] | e]; cbn -[time_close];
    try reflexivity.
  destruct (time_close _ _ _); reflexivity.
Qed.

Lemma fetch_symbol_ends (symbol : string) :
  (exists series, outcome (fetch_symbol env symbol start_date end_date) = Val series) \/
  (exists msg, outcome (fetch_symbol env symbol start_date end_date)
               = Return (Text msg)).
Proof.
  unfold fetch_symbol, request, try_except, bind, trace, outcome.
  destruct (data_source env _) as [[[| [| c r] l] |] | e]; cbn -[time_close];
    eauto.
  destruct (time_close _ _ _); cbn; eauto.
Qed.

Lemma fetch_fails_returns (symbol msg : string) :
  fetch_fails env symbol start_date end_date msg ->
  fetch_symbol env symbol start_date end_date
  = ([price_request start_date end_date symbol], Return (Text msg)).
Proof.
  intros H. unfold fetch_symbol, request, price_request, try_except, bind, outcome.
  destruct H as [e H | H | H]; rewrite H; reflexivity.
Qed.

Lemma fetch_succeeds_val (symbol : string) :
  fetch_succeeds env symbol start_date end_date ->
  exists series,
    fetch_symbol env symbol start_date end_date
    = ([price_request start_date end_date symbol], Val series).
Proof.
  intros [series H]. exists series.
  rewrite (surjective_pairing (fetch_symbol env symbol start_date end_date)).
  f_equal; [apply fetch_symbol_trace | exact H].
Qed.

(** The loop stops at the first symbol whose turn returns. *)
Lemma fetch_all_stops (pre post : list string) (s : string) (r : Reply) :
  Forall (fun x => fetch_succeeds env x start_date end_date) pre ->
  fetch_symbol env s start_date end_date
  = ([price_request start_date end_date s], Return r) ->
  forall all_data,
    fetch_all env (pre ++ s :: post)%list start_date end_date all_data
    = (map (price_request start_date end_date) (pre ++ [s])%list, Return r).
Proof.
  intros Hpre Hs. induction Hpre as [| x pre Hx Hpre IH]; intros all_data; simpl.
  - rewrite (bind_return _ _ _ _ Hs). reflexivity.
  - destruct (fetch_succeeds_val x Hx) as [series Hv].
    rewrite (bind_val _ _ _ _ Hv). unfold trace, outcome.
    rewrite IH. reflexivity.
Qed.

(** The requests of the loop are those of a prefix of [symbols], in
    order. *)
Lemma fetch_all_prefix (symbols : list string) :
  forall all_data, exists n,
    trace (fetch_all env symbols start_date end_date all_data)
    = map (price_request start_date end_date) (firstn n symbols).
Proof.
  induction symbols as [| x rest IH]; intros all_data; simpl.
  - exists 0%nat. reflexivity.
  - pose proof (fetch_symbol_trace x) as Ht.
    destruct (fetch_symbol_ends x) as [[series Hv] | [msg Hr]].
    + destruct (IH (all_data ++ [series])%list) as [n Hn].
      exists (S n). unfold bind, trace in *. unfold outcome in Hv.
      rewrite Hv. simpl. rewrite Ht, Hn. reflexivity.
    + exists 1%nat. unfold bind, trace in *. unfold outcome in Hr.
      rewrite Hr. simpl. rewrite Ht. reflexivity.
Qed.

(** A loop that runs to its end has appended one series per symbol. *)
Lemma fetch_all_length (symbols : list string) :
  forall all_data t result,
    fetch_all env symbols start_date end_date all_data = (t, Val result) ->
    List.length result = (List.length all_data + List.length symbols)%nat.
Proof.
  induction symbols as [| x rest IH]; intros all_data t result; simpl.
  - unfold ret. intros H. inversion H. lia.
  - unfold bind.
    destruct (fetch_symbol env x start_date end_date) as [tx [series | r | e]];
      simpl; try discriminate.
    destruct (fetch_all env rest start_date end_date (all_data ++ [series])%list)
      as [t' o] eqn:Hrest. simpl. intros H. inversion H; subst.
    rewrite (IH _ _ _ Hrest), length_app. simpl. lia.
Qed.

(** Whatever the prologue returns early, each portfolio tool returns. *)
Lemma portfolio_returns_early (symbols : list string) (t : list Event) (r : Reply) :
  price_table env symbols start_date end_date = (t, Return r) ->
  portfolio_tools_end env symbols start_date end_date (t, Return r).
Proof.
  intros H. repeat split; intros.
  - unfold calculate_returns, calculate_returns_try.
    rewrite (bind_return _ _ _ _ H). reflexivity.
  - unfold optimize_portfolio, optimize_portfolio_try, estimates.
    rewrite (bind_return _ _ _ _ H). reflexivity.
  - unfold full_portfolio_optimization, full_portfolio_optimization_try, estimates.
    rewrite (bind_return _ _ _ _ H). reflexivity.
Qed.

Lemma disjoint_rows_empty (s1 s2 : PriceSeries) :
  (forall d, In d (dates s1) -> ~ In d (dates s2)) ->
  rows (dropna (concat [s1; s2])) = [].
Proof.
  intros Hdis.
  destruct (rows (dropna (concat [s1; s2]))) as [| r l] eqn:Hrows; [reflexivity |].
  exfalso. apply (Hdis (fst r)).
  - apply (cleaned_dates [s1; s2]); [left; reflexivity |].
    rewrite Hrows. left. reflexivity.
  - apply (cleaned_dates [s1; s2]); [right; left; reflexivity |].
    rewrite Hrows. left. reflexivity.
Qed.

Lemma empty_table_reported (symbols : list string) (t : list Event)
    (all_data : list PriceSeries) :
  symbols <> [] ->
  fetch_all env symbols start_date end_date [] = (t, Val all_data) ->
  rows (dropna (concat all_data)) = [] ->
  portfolio_tools_end env symbols start_date end_date
    (t, Return (Text no_complete_data)).
Proof.
  intros Hne Hfetch Hrows. apply portfolio_returns_early.
  unfold price_table. rewrite (bind_val _ _ _ _ Hfetch).
  pose proof (fetch_all_length _ _ _ _ Hfetch) as Hlen.
  unfold combine. destruct all_data as [| s l].
  - destruct symbols; [congruence | simpl in Hlen; lia].
  - unfold table_empty. rewrite Hrows. simpl. rewrite app_nil_r. reflexivity.
Qed.

End FetchLoop.

(* ================================================================== *)
(** ** Requests issued by the portfolio tools *)
(* ================================================================== *)

Lemma trace_bind_quiet {A B : Type} (m : IO A) (k : A -> IO B) :
  (forall a, trace (k a) = []) -> trace (bind m k) = trace m.
Proof.
  intros H. unfold bind, trace in *. destruct (snd m); simpl; try reflexivity.
  rewrite H. apply app_nil_r.
Qed.

Lemma trace_try_quiet {A : Type} (m : IO A) (h : exn -> IO A) :
  (forall e, trace (h e) = []) -> trace (try_except m h) = trace m.
Proof.
  intros H. unfold try_except, trace in *. destruct (snd m); simpl; try reflexivity.
  rewrite H. apply app_nil_r.
Qed.

Lemma trace_lift {A : Type} (x : ext A) : trace (lift x) = [].
Proof. destruct x; reflexivity. Qed.

Lemma trace_combine (all_data : list PriceSeries) : trace (combine all_data) = [].
Proof.
  unfold combine. destruct all_data; [reflexivity |].
  destruct (table_empty _); reflexivity.
Qed.

Lemma trace_objective (env : Env) (solve : EF env -> ext (EF env))
    (name label : string) (mu : Mu) (S : Matrix) (rf : Q) :
  trace (objective env solve name label mu S rf) = [].
Proof.
  unfold objective, try_except_optimization, bind, outcome, trace.
  destruct (solve_objective env solve mu S rf) as [r | e]; simpl; [reflexivity |].
  destruct (exn_class e); reflexivity.
Qed.

Ltac quiet :=
  repeat (intros;
          first [ reflexivity
                | apply trace_lift
                | apply trace_combine
                | apply trace_objective
                | rewrite trace_bind_quiet
                | rewrite trace_try_quiet ]).

Lemma trace_run_objectives (env : Env) (mu : Mu) (S : Matrix) (rf ra : Q) :
  trace (run_objectives env mu S rf ra) = [].
Proof. unfold run_objectives. quiet. Qed.

Lemma trace_price_table (env : Env) (symbols : list string) (sd ed : string) :
  trace (price_table env symbols sd ed) = trace (fetch_all env symbols sd ed []).
Proof. unfold price_table. quiet. Qed.

Lemma trace_estimates (env : Env) (symbols : list string) (sd ed cm : string)
    (lg : bool) :
  trace (estimates env symbols sd ed cm lg) = trace (fetch_all env symbols sd ed []).
Proof. unfold estimates. rewrite trace_bind_quiet; [apply trace_price_table | quiet]. Qed.

Lemma trace_calculate_returns (env : Env) (symbols : list string)
    (sd ed method : string) (lg : bool) :
  trace (calculate_returns env symbols sd ed method lg)
  = trace (fetch_all env symbols sd ed []).
Proof.
  unfold calculate_returns, calculate_returns_try.
  rewrite trace_try_quiet by quiet.
  rewrite trace_bind_quiet; [apply trace_price_table | quiet].
Qed.

Lemma trace_optimize_portfolio (env : Env) (symbols : list string)
    (sd ed : string) (rf : Q) (cm : string) (lg : bool) :
  trace (optimize_portfolio env symbols sd ed rf cm lg)
  = trace (fetch_all env symbols sd ed []).
Proof.
  unfold optimize_portfolio, optimize_portfolio_try.
  rewrite trace_try_quiet by (intros e; destruct (exn_class e); reflexivity).
  rewrite trace_bind_quiet; [apply trace_estimates | quiet].
Qed.

Lemma trace_full_portfolio_optimization (env : Env) (symbols : list string)
    (sd ed : string) (rf ra : Q) (cm : string) (lg : bool) :
  trace (full_portfolio_optimization env symbols sd ed rf ra cm lg)
  = trace (fetch_all env symbols sd ed []).
Proof.
  unfold full_portfolio_optimization, full_portfolio_optimization_try.
  rewrite trace_try_quiet by quiet.
  rewrite trace_bind_quiet; [apply trace_estimates |].
  intros est. rewrite trace_bind_quiet; [apply trace_run_objectives | quiet].
Qed.

(** C4.  A portfolio request whose series all arrive but leave an empty
    table once joined on date and stripped of incomplete rows ends, in
    each of the three portfolio tools, with the explicit message that
    no complete data is left; two symbols with disjoint date ranges are
    such a request. *)
Theorem empty_table_is_no_complete_data (env : Env) (start_date end_date : string) :
  (forall symbols t all_data,
      symbols <> [] ->
      fetch_all env symbols start_date end_date [] = (t, Val all_data) ->
      rows (dropna (concat all_data)) = [] ->
      portfolio_tools_end env symbols start_date end_date
        (t, Return (Text "No complete data available after cleaning missing values")))
  /\
  (forall a b s1 s2,
      outcome (fetch_symbol env a start_date end_date) = Val s1 ->
      outcome (fetch_symbol env b start_date end_date) = Val s2 ->
      (forall d, In d (dates s1) -> ~ In d (dates s2)) ->
      portfolio_tools_end env [a; b] start_date end_date
        ([price_request start_date end_date a; price_request start_date end_date b],
         Return (Text "No complete data available after cleaning missing values"))).
Proof.
  split.
  - intros symbols t all_data Hne Hfetch Hrows.
    exact (empty_table_reported env start_date end_date symbols t all_data
             Hne Hfetch Hrows).
  - intros a b s1 s2 Ha Hb Hdis.
    apply (empty_table_reported env start_date end_date [a; b] _ [s1; s2]).
    + discriminate.
    + destruct (fetch_succeeds_val env start_date end_date a (ex_intro _ s1 Ha))
        as [s1' Ha'].
      destruct (fetch_succeeds_val env start_date end_date b (ex_intro _ s2 Hb))
        as [s2' Hb'].
      assert (s1' = s1) by (rewrite Ha' in Ha; inversion Ha; reflexivity).
      assert (s2' = s2) by (rewrite Hb' in Hb; inversion Hb; reflexivity).
      subst. simpl. unfold bind. rewrite Ha'. simpl. rewrite Hb'. reflexivity.
    + apply disjoint_rows_empty, Hdis.
Qed.

(** C5.  Within one portfolio request the price requests go out one
    after another in the order of [symbols], and stop at the first
    symbol whose fetch fails (an error or an empty result): the tool
    returns that symbol's message and no request is made for any later
    symbol. *)
Theorem fetches_in_order_until_failure (env : Env) (start_date end_date : string) :
  (forall symbols, exists n,
      portfolio_tools_trace env symbols start_date end_date
        (map (price_request start_date end_date) (firstn n symbols)))
  /\
  (forall pre s post msg,
      Forall (fun x => fetch_succeeds env x start_date end_date) pre ->
      fetch_fails env s start_date end_date msg ->
      portfolio_tools_end env (pre ++ s :: post)%list start_date end_date
        (map (price_request start_date end_date) (pre ++ [s])%list,
         Return (Text msg))).
Proof.
  split.
  - intros symbols.
    destruct (fetch_all_prefix env start_date end_date symbols []) as [n Hn].
    exists n. repeat split; intros.
    + rewrite trace_calculate_returns. exact Hn.
    + rewrite trace_optimize_portfolio. exact Hn.
    + rewrite trace_full_portfolio_optimization. exact Hn.
  - intros pre s post msg Hpre Hfail.
    apply portfolio_returns_early. unfold price_table.
    apply bind_return, fetch_all_stops; [assumption |].
    apply fetch_fails_returns, Hfail.
Qed.

(* ================================================================== *)
(** ** The tool boundary *)
(* ================================================================== *)

Lemma append_assoc (a b c : string) : (a ++ b) ++ c = a ++ (b ++ c).
Proof.
  induction a as [| x a IH]; simpl; [reflexivity | rewrite IH; reflexivity].
Qed.

Lemma handled (b : Body) (prefix : string) (e : exn) :
  outcome b = Raise e ->
  returned (try_except b (handler prefix)) = Ok (Text (prefix ++ exn_str e)).
Proof.
  intros H. rewrite (try_except_raise _ _ _ H). reflexivity.
Qed.

Lemma handler_total (b : Body) (prefix : string) :
  exists r, returned (try_except b (handler prefix)) = Ok r.
Proof.
  apply try_except_returns. intros e. eexists. apply handler_returns.
Qed.

Lemma error_message (prefix what message : string) :
  prefix = "Error " ++ what ++ ": " ->
  prefix ++ message = "Error " ++ what ++ ": " ++ message.
Proof.
  intros ->. simpl. rewrite append_assoc. reflexivity.
Qed.

Ltac unfold_tools :=
  unfold get_stock_history, get_forex_history, get_crypto_history,
    get_index_history, get_income_statement, get_balance_sheet, get_cash_flow,
    get_financial_ratios, get_dividend_history, get_sjc_gold_price,
    get_btmc_gold_price, get_vcb_exchange_rate, get_company_info,
    calculate_returns, full_portfolio_optimization, get_fund_listing,
    search_funds, get_fund_nav_report, get_fund_top_holdings,
    get_fund_industry_allocation, get_fund_asset_allocation.

(** C6, as the code has it.  No call of a tool lets an exception
    through: every tool returns.  An exception that leaves the
    outermost [try] block of a tool comes back as the text
    ["Error <doing something>: <message>"], naming the tool's operation
    and carrying the original message, except an [OptimizationError]
    in [optimize_portfolio], which comes back as
    ["Optimization failed: <message>"]. *)
Theorem exceptions_become_messages (env : Env) (t : ToolCall) :
  (exists r, returned (call_tool env t) = Ok r) /\
  (forall e, outcome (try_block env t) = Raise e ->
     returned (call_tool env t)
     = Ok (Text (if is_optimize_portfolio t && is_optimization_error e
                 then "Optimization failed: " ++ exn_str e
                 else "Error " ++ doing t ++ ": " ++ exn_str e))).
Proof.
  destruct t;
    cbv beta iota delta [call_tool try_block is_optimize_portfolio doing andb];
    unfold_tools;
    try (split; [apply handler_total |];
         intros e He; rewrite (handled _ _ _ He);
         do 2 f_equal; apply error_message; reflexivity).
  - split; [apply handler_total |].
    intros e He. rewrite (handled _ _ _ He).
    do 2 f_equal. apply error_message.
    simpl. rewrite !append_assoc. reflexivity.
  - split.
    + apply try_except_returns. intros e.
      destruct (exn_class e); eexists; apply handler_returns.
    + intros e He. unfold optimize_portfolio.
      rewrite (try_except_raise _ _ _ He). unfold is_optimization_error.
      destruct (exn_class e); [reflexivity |].
      reflexivity.
Qed.

(* ================================================================== *)
(** ** Sorting by a column *)
(* ================================================================== *)

Lemma cell_leb_total (a b : Cell) : cell_leb a b = false -> cell_leb b a = true.
Proof.
  destruct a as [x | u |], b as [y | v |]; simpl; try congruence.
  - intros H. apply Qle_bool_iff.
    destruct (Qlt_le_dec y x) as [Hlt | Hle].
    + apply Qlt_le_weak, Hlt.
    + apply Qle_bool_iff in Hle. congruence.
  - intros H. destruct (String.leb_total u v); congruence.
Qed.

Lemma insert_row_perm (col : string) (r : Row) (l : list Row) :
  Permutation (r :: l) (insert_row col r l).
Proof.
  induction l as [| x l IH]; simpl; [reflexivity |].
  destruct (cell_leb _ _); [| reflexivity].
  rewrite perm_swap. apply perm_skip, IH.
Qed.

Lemma insert_row_sorted (col : string) (r : Row) (l : list Row) :
  Sorted (key_le col) l -> Sorted (key_le col) (insert_row col r l).
Proof.
  induction l as [| x l IH]; simpl; intros Hs.
  - repeat constructor.
  - apply Sorted_inv in Hs as [Hl Hx].
    destruct (cell_leb (row_key col x) (row_key col r)) eqn:Hxr.
    + constructor; [apply IH, Hl |].
      destruct l as [| y l]; simpl.
      * constructor. exact Hxr.
      * destruct (cell_leb (row_key col y) (row_key col r));
          constructor; [inversion Hx; assumption | exact Hxr].
    + constructor; [constructor; assumption |].
      constructor. apply cell_leb_total, Hxr.
Qed.

Lemma sort_rows_spec (col : string) (df : DataFrame) :
  Sorted (key_le col) (sort_rows col df) /\ Permutation df (sort_rows col df).
Proof.
  unfold sort_rows.
  assert (H : forall acc,
             Sorted (key_le col) acc ->
             Sorted (key_le col) (fold_left (fun a r => insert_row col r a) df acc) /\
             Permutation (df ++ acc)
               (fold_left (fun a r => insert_row col r a) df acc)).
  { induction df as [| r df IH]; intros acc Hacc; simpl.
    - split; [assumption | reflexivity].
    - destruct (IH (insert_row col r acc) (insert_row_sorted col r acc Hacc))
        as [Hs Hp].
      split; [assumption |].
      rewrite <- Hp. rewrite <- insert_row_perm.
      apply Permutation_middle. }
  destruct (H [] (Sorted_nil _)) as [Hs Hp].
  split; [assumption |]. rewrite app_nil_r in Hp. exact Hp.
Qed.

(** The shape shared by the three statements: a stock handle, one
    request, the empty check, the sort, the JSON. *)
Lemma sorted_reply (env : Env) (symbol : string) (r : Request)
    (nodata prefix : string) (j : json) :
  returned
    (try_except
       (stock env symbol "VCI" ;;;
        df <- request env r ;;
        df <- or_return df nodata ;;
        df <- lift (sort_values "yearReport" df) ;;
        return_ (to_json df))
       (handler prefix)) = Ok (Json j) ->
  sorted_statement env r j.
Proof.
  unfold returned, outcome, try_except, bind, stock, request, handler.
  destruct (vnstock_stock env symbol "VCI") as [u | e]; simpl; [| easy].
  destruct (data_source env r) as [df | e] eqn:Hsrc;
    cbn -[or_return sort_values]; [| easy].
  destruct (or_return_ends df nodata) as [-> | (row & l & -> & _ & ->)];
    cbn -[sort_values]; [easy |].
  destruct (sort_values "yearReport" (row :: l)) as [sorted | e] eqn:Hsort;
    cbn; [| easy].
  apply sort_values_ok in Hsort as (-> & _ & _).
  intros H. inversion H; subst j; clear H.
  destruct (sort_rows_spec "yearReport" (row :: l)) as [Hs Hp].
  exists (row :: l), (sort_rows "yearReport" (row :: l)).
  repeat split; assumption || reflexivity.
Qed.

(** C9.  A call of [get_income_statement], [get_balance_sheet] or
    [get_cash_flow] that returns JSON returns the fetched records in
    ascending order of their [yearReport] field, oldest year first. *)
Theorem statements_sorted_by_year (env : Env) (symbol lang : string) (j : json) :
  (returned (get_income_statement env symbol lang) = Ok (Json j) ->
   sorted_statement env (Finance_income_statement (upper symbol) "VCI" "year" lang) j)
  /\
  (returned (get_balance_sheet env symbol lang) = Ok (Json j) ->
   sorted_statement env (Finance_balance_sheet (upper symbol) "VCI" "year" lang) j)
  /\
  (returned (get_cash_flow env symbol lang) = Ok (Json j) ->
   sorted_statement env (Finance_cash_flow (upper symbol) "VCI" "year" lang) j).
Proof.
  repeat split; intros H; eapply sorted_reply; exact H.
Qed.

(* ================================================================== *)
(** ** Company information *)
(* ================================================================== *)

Lemma not_listed (x : string) (l : list string) :
  ~ In x l -> forallb (fun y => negb (x =? y)) l = true.
Proof.
  induction l as [| y l IH]; simpl; intros H; [reflexivity |].
  apply andb_true_intro. split.
  - apply negb_true_iff, String.eqb_neq. intros ->. apply H. left. reflexivity.
  - apply IH. intros Hin. apply H. right. exact Hin.
Qed.

(** C3, as the code has it.  With an [info_type] outside the nine
    listed ones, [get_company_info] asks for the stock handle of the
    uppercased symbol and nothing else; if that succeeds it returns the
    invalid-type message listing the valid options, and if it raises it
    returns the tool's error message for that exception. *)
Theorem invalid_info_type_reply (env : Env) (symbol info_type lang : string) :
  ~ In info_type valid_info_types ->
  get_company_info env symbol info_type lang
  = ([Init (upper symbol) "VCI"],
     Return (Text
       match vnstock_stock env (upper symbol) "VCI" with
       | Ok _ =>
           "Invalid info_type '" ++ info_type
           ++ "'. Valid types: overview, shareholders, officers, subsidiaries, events, news, reports, ratio_summary, trading_stats"
       | Err e =>
           ("Error fetching " ++ info_type ++ " for " ++ symbol ++ ": ") ++ exn_str e
       end)).
Proof.
  intros H. apply not_listed in H. simpl in H.
  repeat (apply andb_prop in H; destruct H as [?H H]).
  repeat match goal with
         | E : negb _ = true |- _ => apply negb_true_iff in E
         end.
  unfold get_company_info, get_company_info_try.
  repeat match goal with
         | E : (info_type =? _) = false |- _ => rewrite E; clear E
         end.
  unfold try_except, bind, stock, handler, outcome.
  destruct (vnstock_stock env (upper symbol) "VCI"); reflexivity.
Qed.

(* ================================================================== *)
(** ** Symbols in upper and lower case *)
(* ================================================================== *)

Lemma upper_ascii_idempotent (c : ascii) :
  upper_ascii (upper_ascii c) = upper_ascii c.
Proof.
  destruct c as [[] [] [] [] [] [] [] []]; reflexivity.
Qed.

Lemma upper_idempotent (s : string) : upper (upper s) = upper s.
Proof.
  induction s as [| c s IH]; simpl; [reflexivity |].
  rewrite upper_ascii_idempotent, IH. reflexivity.
Qed.

Lemma append_empty (s : string) : s ++ "" = s.
Proof.
  induction s as [| c s IH]; simpl; [reflexivity | rewrite IH; reflexivity].
Qed.

Lemma agree_same (s : string) (t : list Event) (r : Reply) :
  agree_up_to_symbol s (t, Return r) (t, Return r).
Proof.
  split; [reflexivity |]. simpl. destruct r; [left |]; reflexivity.
Qed.

Lemma agree_quoted (s : string) (t : list Event) (pre post : string) :
  agree_up_to_symbol s (t, Return (Text (pre ++ s ++ post)))
                       (t, Return (Text (pre ++ upper s ++ post))).
Proof.
  split; [reflexivity |]. simpl. right. exists pre, post. split; reflexivity.
Qed.

Lemma agree_no_data (s : string) (t : list Event) (nodata : string) :
  agree_up_to_symbol s (t, Return (Text (nodata ++ s)))
                       (t, Return (Text (nodata ++ upper s))).
Proof.
  rewrite <- (append_empty s) at 2. rewrite <- (append_empty (upper s)).
  apply agree_quoted.
Qed.

Lemma agree_error (s : string) (t : list Event) (prefix message : string) :
  agree_up_to_symbol s (t, Return (Text ((prefix ++ s ++ ": ") ++ message)))
                       (t, Return (Text ((prefix ++ upper s ++ ": ") ++ message))).
Proof.
  rewrite !append_assoc. apply agree_quoted.
Qed.

(** A lookup made with a key that does not depend on the case of the
    symbol, whose messages quote the symbol as passed. *)
Lemma agree_lookup (s : string) (req : IO (option DataFrame))
    (K : DataFrame -> Body) (nodata prefix : string) :
  agree_up_to_symbol s
    (try_except (df <- req ;; df <- or_return df (nodata ++ s) ;; K df)
                (handler (prefix ++ s ++ ": ")))
    (try_except (df <- req ;; df <- or_return df (nodata ++ upper s) ;; K df)
                (handler (prefix ++ upper s ++ ": "))).
Proof.
  unfold try_except, bind, handler, or_return.
  destruct req as [t [[[| [| c row] l] |] | r | e]]; simpl;
    try apply agree_no_data; try apply agree_same.
  - destruct (K _) as [t' [v | r | e]]; simpl;
      [destruct v | apply agree_same | apply agree_error].
  - apply agree_error.
Qed.

Lemma agree_stock_lookup (s : string) (init : IO unit) (req : IO (option DataFrame))
    (K : DataFrame -> Body) (nodata prefix : string) :
  agree_up_to_symbol s
    (try_except (init ;;; df <- req ;; df <- or_return df (nodata ++ s) ;; K df)
                (handler (prefix ++ s ++ ": ")))
    (try_except (init ;;; df <- req ;; df <- or_return df (nodata ++ upper s) ;; K df)
                (handler (prefix ++ upper s ++ ": "))).
Proof.
  unfold try_except, bind, handler, or_return.
  destruct init as [t0 [u | r | e]]; simpl;
    try apply agree_same; try apply agree_error.
  destruct req as [t [[[| [| c row] l] |] | r | e]]; simpl;
    try apply agree_no_data; try apply agree_same; try apply agree_error.
  destruct (K _) as [t' [v | r | e]]; simpl;
    [destruct v | apply agree_same | apply agree_error].
Qed.

(** C10, as the code has it.  The ten tools that uppercase their
    symbol look data up under the uppercased symbol, so a call with [s]
    and the call with [s] uppercased issue the same requests and, when
    they return JSON, return the same JSON; their "no data" and error
    messages quote the symbol as it was passed, so those replies agree
    except for that quoted symbol. *)
Theorem symbol_case_insensitive_lookup (env : Env) (s : string) :
  (forall lang, agree_up_to_symbol s (get_income_statement env s lang)
                                     (get_income_statement env (upper s) lang)) /\
  (forall lang, agree_up_to_symbol s (get_balance_sheet env s lang)
                                     (get_balance_sheet env (upper s) lang)) /\
  (forall lang, agree_up_to_symbol s (get_cash_flow env s lang)
                                     (get_cash_flow env (upper s) lang)) /\
  (forall lang, agree_up_to_symbol s (get_financial_ratios env s lang)
                                     (get_financial_ratios env (upper s) lang)) /\
  agree_up_to_symbol s (get_dividend_history env s)
                       (get_dividend_history env (upper s)) /\
  (forall info_type lang,
      agree_up_to_symbol s (get_company_info env s info_type lang)
                           (get_company_info env (upper s) info_type lang)) /\
  agree_up_to_symbol s (get_fund_nav_report env s)
                       (get_fund_nav_report env (upper s)) /\
  agree_up_to_symbol s (get_fund_top_holdings env s)
                       (get_fund_top_holdings env (upper s)) /\
  agree_up_to_symbol s (get_fund_industry_allocation env s)
                       (get_fund_industry_allocation env (upper s)) /\
  agree_up_to_symbol s (get_fund_asset_allocation env s)
                       (get_fund_asset_allocation env (upper s)).
Proof.
  repeat match goal with |- _ /\ _ => split end; intros.
  - unfold get_income_statement, get_income_statement_try.
    rewrite upper_idempotent. apply agree_stock_lookup.
  - unfold get_balance_sheet, get_balance_sheet_try.
    rewrite upper_idempotent. apply agree_stock_lookup.
  - unfold get_cash_flow, get_cash_flow_try.
    rewrite upper_idempotent. apply agree_stock_lookup.
  - unfold get_financial_ratios, get_financial_ratios_try.
    rewrite upper_idempotent. apply agree_stock_lookup.
  - unfold get_dividend_history, get_dividend_history_try.
    rewrite upper_idempotent. apply agree_stock_lookup.
  - unfold get_company_info, get_company_info_try.
    rewrite upper_idempotent.
    rewrite <- !(append_assoc "No " info_type).
    rewrite <- !(append_assoc ("No " ++ info_type) " data found for ").
    rewrite <- !(append_assoc "Error fetching " info_type).
    rewrite <- !(append_assoc ("Error fetching " ++ info_type) " for ").
    apply agree_stock_lookup.
  - unfold get_fund_nav_report, get_fund_nav_report_try.
    rewrite upper_idempotent. apply agree_lookup.
  - unfold get_fund_top_holdings, get_fund_top_holdings_try.
    rewrite upper_idempotent. apply agree_lookup.
  - unfold get_fund_industry_allocation, get_fund_industry_allocation_try.
    rewrite upper_idempotent. apply agree_lookup.
  - unfold get_fund_asset_allocation, get_fund_asset_allocation_try.
    rewrite upper_idempotent. apply agree_lookup.
Qed.

(* ================================================================== *)
(** ** The covariance selector *)
(* ================================================================== *)

Lemma estimates_fallback (env : Env) (symbols : list string) (sd ed cm : string)
    (lg : bool) :
  ~ In cm covariance_methods ->
  estimates env symbols sd ed cm lg = estimates env symbols sd ed "sample_cov" lg.
Proof.
  intros H. apply not_listed in H. simpl in H.
  repeat (apply andb_prop in H; destruct H as [?H H]).
  repeat match goal with
         | E : negb _ = true |- _ => apply negb_true_iff in E
         end.
  unfold estimates, covariance.
  repeat match goal with
         | E : (cm =? _) = false |- _ => rewrite E; clear E
         end.
  reflexivity.
Qed.

(** The prologue ends with a table, with one of its messages, or, in
    the estimators, with an exception: it never returns JSON. *)
Lemma fetch_all_ends (env : Env) (sd ed : string) (symbols : list string) :
  forall all_data,
    (exists result, outcome (fetch_all env symbols sd ed all_data) = Val result) \/
    (exists msg, outcome (fetch_all env symbols sd ed all_data) = Return (Text msg)).
Proof.
  induction symbols as [| x rest IH]; intros all_data; simpl.
  - left. eexists. reflexivity.
  - unfold bind, outcome in *.
    destruct (fetch_symbol_ends env sd ed x) as [[series Hv] | [msg Hr]];
      unfold outcome in *.
    + rewrite Hv. simpl. apply IH.
    + rewrite Hr. simpl. right. eexists. reflexivity.
Qed.

Lemma price_table_ends (env : Env) (symbols : list string) (sd ed : string) :
  (exists t, outcome (price_table env symbols sd ed) = Val t) \/
  (exists msg, outcome (price_table env symbols sd ed) = Return (Text msg)).
Proof.
  unfold price_table, bind, outcome.
  destruct (fetch_all_ends env sd ed symbols []) as [[result Hv] | [msg Hr]];
    unfold outcome in *.
  - rewrite Hv. simpl. unfold combine. destruct result as [| s l]; simpl.
    + right. eexists. reflexivity.
    + destruct (table_empty _); simpl; [right | left]; eexists; reflexivity.
  - rewrite Hr. simpl. right. eexists. reflexivity.
Qed.

Lemma estimates_returns_text (env : Env) (symbols : list string) (sd ed cm : string)
    (lg : bool) (r : Reply) :
  outcome (estimates env symbols sd ed cm lg) = Return r -> exists msg, r = Text msg.
Proof.
  unfold estimates, bind, outcome.
  destruct (price_table_ends env symbols sd ed) as [[t Hv] | [msg Hr]];
    unfold outcome in *.
  - rewrite Hv. simpl.
    destruct (mean_historical_return env t lg); simpl; [| discriminate].
    destruct (covariance env cm t); simpl; discriminate.
  - rewrite Hr. simpl. intros H. inversion H. eexists. reflexivity.
Qed.

Lemma run_objectives_ends (env : Env) (mu : Mu) (S : Matrix) (rf ra : Q) :
  run_objectives env mu S rf ra
  = ([],
     match first_other_exception
             [ solve_objective env (fun ef => max_sharpe env ef rf) mu S rf;
               solve_objective env (min_volatility env) mu S rf;
               solve_objective env (fun ef => max_quadratic_utility env ef ra) mu S rf ]
     with
     | Some e => Raise e
     | None =>
         Val [ ("max_sharpe",
                entry "max_sharpe" "Max Sharpe"
                  (solve_objective env (fun ef => max_sharpe env ef rf) mu S rf));
               ("min_volatility",
                entry "min_volatility" "Min volatility"
                  (solve_objective env (min_volatility env) mu S rf));
               ("max_utility",
                entry "max_utility" "Max utility"
                  (solve_objective env (fun ef => max_quadratic_utility env ef ra)
                     mu S rf)) ]
     end).
Proof.
  unfold run_objectives, objective.
  destruct (solve_objective env (fun ef => max_sharpe env ef rf) mu S rf)
    as [[w1 p1] | [[] m1]];
    destruct (solve_objective env (min_volatility env) mu S rf)
      as [[w2 p2] | [[] m2]];
    destruct (solve_objective env (fun ef => max_quadratic_utility env ef ra) mu S rf)
      as [[w3 p3] | [[] m3]];
    reflexivity.
Qed.

(** C1, as the code has it.  A [covariance_method] outside the four
    known names selects the sample covariance.  The call then issues
    the same requests as the call with ["sample_cov"] and returns the
    same message, or the same JSON result except for the
    [covariance_method] field, which repeats the name as it was
    passed. *)
Theorem unknown_method_is_sample_cov (env : Env) (covariance_method : string) :
  ~ In covariance_method covariance_methods ->
  (forall combined_df,
      covariance env covariance_method combined_df = sample_cov env combined_df) /\
  (forall symbols sd ed rf lg,
      same_up_to_echo
        (fun m p => optimize_output symbols sd ed rf m lg (fst p) (snd p))
        covariance_method
        (optimize_portfolio env symbols sd ed rf covariance_method lg)
        (optimize_portfolio env symbols sd ed rf "sample_cov" lg)) /\
  (forall symbols sd ed rf ra lg,
      same_up_to_echo
        (fun m optimizations => full_output symbols sd ed rf ra m lg optimizations)
        covariance_method
        (full_portfolio_optimization env symbols sd ed rf ra covariance_method lg)
        (full_portfolio_optimization env symbols sd ed rf ra "sample_cov" lg)).
Proof.
  intros H. split; [| split].
  - intros combined_df. pose proof H as H'. apply not_listed in H'. simpl in H'.
    repeat (apply andb_prop in H'; destruct H' as [?H H']).
    repeat match goal with
           | E : negb _ = true |- _ => apply negb_true_iff in E
           end.
    unfold covariance.
    repeat match goal with
           | E : (covariance_method =? _) = false |- _ => rewrite E; clear E
           end.
    reflexivity.
  - intros. unfold optimize_portfolio, optimize_portfolio_try.
    rewrite (estimates_fallback env symbols sd ed covariance_method lg H).
    pose proof (estimates_returns_text env symbols sd ed "sample_cov" lg) as Htext.
    unfold same_up_to_echo, try_except, bind, trace, outcome, handler in *.
    destruct (estimates env symbols sd ed "sample_cov" lg) as [t [est | r | e]];
      simpl in *.
    + destruct (solve_objective env _ (fst est) (snd est) rf) as [r | e]; simpl.
      * split; [reflexivity |]. exists (rounded (fst r), snd r). split; reflexivity.
      * destruct (exn_class e); simpl; split; reflexivity.
    + destruct (Htext r eq_refl) as [msg ->]. split; reflexivity.
    + destruct (exn_class e); simpl; split; reflexivity.
  - intros. unfold full_portfolio_optimization, full_portfolio_optimization_try.
    rewrite (estimates_fallback env symbols sd ed covariance_method lg H).
    pose proof (estimates_returns_text env symbols sd ed "sample_cov" lg) as Htext.
    unfold same_up_to_echo, try_except, bind, trace, outcome, handler in *.
    destruct (estimates env symbols sd ed "sample_cov" lg) as [t [est | r | e]];
      simpl in *.
    + rewrite run_objectives_ends.
      destruct (first_other_exception _); simpl; split; try reflexivity.
      eexists. split; reflexivity.
    + destruct (Htext r eq_refl) as [msg ->]. split; reflexivity.
    + split; reflexivity.
Qed.

(* ================================================================== *)
(** ** The three objectives *)
(* ================================================================== *)

Lemma entry_succeeded (name label : string) (r : ext (Weights * Performance)) :
  succeeded (entry name label r) = solved r.
Proof. destruct r as [[w p] | e]; reflexivity. Qed.

(** C2, as the code has it.  Once the estimates are there, each of the
    three objectives is attempted on them.  An objective that ends with
    [OptimizationError] leaves a failure entry and does not stop the
    others: all three entries are returned and the summary lists
    exactly the objectives that were solved.  The first objective that
    raises any other exception ends the request with the tool's error
    message. *)
Theorem objectives_fail_independently (env : Env) (symbols : list string)
    (sd ed : string) (rf ra : Q) (cm : string) (lg : bool)
    (t : list Event) (mu : Mu) (S : Matrix) :
  estimates env symbols sd ed cm lg = (t, Val (mu, S)) ->
  let sharpe := solve_objective env (fun ef => max_sharpe env ef rf) mu S rf in
  let minvol := solve_objective env (min_volatility env) mu S rf in
  let utility :=
    solve_objective env (fun ef => max_quadratic_utility env ef ra) mu S rf in
  let optimizations :=
    [ ("max_sharpe", entry "max_sharpe" "Max Sharpe" sharpe);
      ("min_volatility", entry "min_volatility" "Min volatility" minvol);
      ("max_utility", entry "max_utility" "Max utility" utility) ] in
  full_portfolio_optimization env symbols sd ed rf ra cm lg
  = (t, Return
          match first_other_exception [sharpe; minvol; utility] with
          | Some e => Text ("Error in full portfolio optimization: " ++ exn_str e)
          | None => Json (full_output symbols sd ed rf ra cm lg optimizations)
          end)
  /\
  successful_opts optimizations
  = map fst (filter (fun kr => solved (snd kr))
               [ ("max_sharpe", sharpe); ("min_volatility", minvol);
                 ("max_utility", utility) ]).
Proof.
  intros Hest sharpe minvol utility optimizations. split.
  - unfold full_portfolio_optimization, full_portfolio_optimization_try.
    rewrite (bind_val _ _ _ _ Hest). simpl fst. simpl snd.
    rewrite run_objectives_ends.
    fold sharpe minvol utility. fold optimizations.
    unfold try_except, bind, trace, outcome, handler, return_.
    destruct (first_other_exception [sharpe; minvol; utility]); simpl;
      rewrite ?app_nil_r; reflexivity.
  - unfold successful_opts, optimizations. simpl.
    rewrite !entry_succeeded.
    destruct (solved sharpe), (solved minvol), (solved utility); reflexivity.
Qed.

(* ================================================================== *)
(** ** Rounding the weights *)
(* ================================================================== *)

Lemma round_half_even_close (x : Q) :
  (Qabs (inject_Z (round_half_even x) - x) <= 1 # 2)%Q.
Proof.
  unfold round_half_even.
  pose proof (Qfloor_le x) as Hlo. pose proof (Qlt_floor x) as Hhi.
  rewrite inject_Z_plus in Hhi. change (inject_Z 1) with 1%Q in Hhi.
  set (f := Qfloor x) in *.
  apply Qabs_Qle_condition.
  destruct (Qcompare_spec (x - inject_Z f) (1 # 2)) as [He | Hl | Hg].
  - destruct (Z.even f);
      [| rewrite inject_Z_plus; change (inject_Z 1) with 1%Q]; split; lra.
  - split; lra.
  - rewrite inject_Z_plus. change (inject_Z 1) with 1%Q. split; lra.
Qed.

Lemma round_half_even_nonneg (x : Q) :
  (0 <= x)%Q -> (0 <= round_half_even x)%Z.
Proof.
  intros H. apply Qfloor_resp_le in H. change (Qfloor 0) with 0%Z in H.
  unfold round_half_even.
  destruct (_ ?= _)%Q; [destruct (Z.even _) | |]; lia.
Qed.

Lemma pyround4_close (v : Q) : (Qabs (pyround v 4 - v) <= 1 # 20000)%Q.
Proof.
  unfold pyround.
  change (Z.pow 10 (Z.of_nat 4)) with 10000%Z.
  change (Z.to_pos 10000) with 10000%positive.
  pose proof (round_half_even_close (v * inject_Z 10000)) as H.
  rewrite Qmake_Qdiv. unfold Qdiv.
  change (/ inject_Z (Z.pos 10000))%Q with (1 # 10000)%Q.
  change (inject_Z 10000) with (10000 # 1)%Q in *.
  set (r := inject_Z (round_half_even (v * (10000 # 1)))) in *.
  apply Qabs_Qle_condition in H. apply Qabs_Qle_condition.
  split; lra.
Qed.

Lemma pyround4_nonneg (v : Q) : (0 <= v)%Q -> (0 <= pyround v 4)%Q.
Proof.
  intros H. unfold pyround.
  assert (Hs : (0 <= v * inject_Z (10 ^ Z.of_nat 4))%Q).
  { apply Qmult_le_0_compat; [exact H | discriminate]. }
  apply round_half_even_nonneg in Hs.
  unfold Qle. cbn [Qnum Qden]. rewrite Z.mul_1_r. exact Hs.
Qed.

Lemma sum_rounded_close (w : Weights) :
  (Qabs (sum_weights (rounded w) - sum_weights w)
   <= (1 # 20000) * inject_Z (Z.of_nat (List.length w)))%Q.
Proof.
  induction w as [| kv w IH].
  - discriminate.
  - unfold sum_weights, rounded in *.
    cbn [map fold_right List.length fst snd] in *.
    pose proof (pyround4_close (snd kv)) as Hkv.
    rewrite Nat2Z.inj_succ. unfold Z.succ. rewrite inject_Z_plus.
    change (inject_Z 1) with 1%Q.
    apply Qabs_Qle_condition in IH. apply Qabs_Qle_condition in Hkv.
    apply Qabs_Qle_condition. split; lra.
Qed.

Lemma solve_objective_cleaned (env : Env) (solve : EF env -> ext (EF env))
    (mu : Mu) (S : Matrix) (rf : Q) (clean : Weights) (p : Performance) :
  solve_objective env solve mu S rf = Ok (clean, p) ->
  exists ef, clean_weights env ef = Ok clean.
Proof.
  unfold solve_objective, ext_bind.
  destruct (EfficientFrontier env mu S) as [ef |]; [| discriminate].
  destruct (solve ef) as [ef' |]; [| discriminate].
  destruct (portfolio_performance env ef' rf); [| discriminate].
  destruct (clean_weights env ef') as [w |] eqn:Hw; [| discriminate].
  intros H. inversion H; subst. exists ef'. exact Hw.
Qed.

Lemma pyround4_grid (v : Q) :
  exists k : Z, (Qabs (pyround v 4 - (k # 10000)) <= 1 # 1000000000000)%Q.
Proof.
  exists (round_half_even (v * inject_Z (10 ^ Z.of_nat 4))).
  unfold pyround. change (Z.to_pos (10 ^ Z.of_nat 4)) with 10000%positive.
  set (x := (_ # 10000)%Q).
  apply Qabs_Qle_condition. split; lra.
Qed.

Lemma pyround4_rounds (kv : string * Q) :
  rounds kv (fst kv, pyround (snd kv) 4).
Proof.
  unfold rounds. simpl. repeat split.
  - apply pyround4_nonneg.
  - eapply Qle_trans; [apply pyround4_close | discriminate].
  - apply pyround4_grid.
Qed.

Lemma rounded_is_rounded_from (clean : Weights) :
  rounded_from clean (rounded clean).
Proof.
  split.
  - unfold rounded. induction clean as [| kv clean IH]; simpl; constructor;
      [apply pyround4_rounds | exact IH].
  - pose proof (sum_rounded_close clean) as H.
    assert (Hn : (0 <= inject_Z (Z.of_nat (List.length clean)))%Q).
    { change 0%Q with (inject_Z 0). rewrite <- Zle_Qle. lia. }
    apply Qabs_Qle_condition in H. apply Qabs_Qle_condition. split; lra.
Qed.

Lemma solved_entry (env : Env) (solve : EF env -> ext (EF env))
    (name label : string) (mu : Mu) (S : Matrix) (rf : Q) :
  succeeded (entry name label (solve_objective env solve mu S rf)) = true ->
  exists ef clean p,
    clean_weights env ef = Ok clean /\
    entry name label (solve_objective env solve mu S rf)
    = objective_success name clean p /\
    rounded_from clean (rounded clean).
Proof.
  intros Hs.
  destruct (solve_objective env solve mu S rf) as [[clean p] | e] eqn:Hsolve;
    [| discriminate Hs].
  destruct (solve_objective_cleaned _ _ _ _ _ _ _ Hsolve) as [ef Hef].
  exists ef, clean, p. repeat split; try assumption.
  - apply rounded_is_rounded_from.
  - apply rounded_is_rounded_from.
Qed.

(** C7, as the code has it.  In every successful optimisation, the one
    of [optimize_portfolio] and each successful objective of
    [full_portfolio_optimization], the returned weights are the
    optimiser's cleaned weights, each rounded to four decimals: a
    weight stays under its symbol, a non-negative weight stays
    non-negative, and the returned weights sum to the sum of the
    cleaned weights within 0.0001 times the number of assets.  The
    server adds no clipping and no normalisation of its own. *)
Theorem returned_weights_are_rounded (env : Env) (symbols : list string)
    (sd ed : string) (rf ra : Q) (cm : string) (lg : bool) (j : json) :
  (returned (optimize_portfolio env symbols sd ed rf cm lg) = Ok (Json j) ->
   exists ef clean p,
     clean_weights env ef = Ok clean /\
     j = optimize_output symbols sd ed rf cm lg (rounded clean) p /\
     rounded_from clean (rounded clean))
  /\
  (returned (full_portfolio_optimization env symbols sd ed rf ra cm lg)
   = Ok (Json j) ->
   exists optimizations,
     j = full_output symbols sd ed rf ra cm lg optimizations /\
     forall k v, In (k, v) optimizations -> succeeded v = true ->
       exists ef clean p,
         clean_weights env ef = Ok clean /\
         v = objective_success k clean p /\
         rounded_from clean (rounded clean)).
Proof.
  split.
  - unfold optimize_portfolio, optimize_portfolio_try.
    pose proof (estimates_returns_text env symbols sd ed cm lg) as Htext.
    unfold returned, try_except, bind, trace, outcome, handler in *.
    destruct (estimates env symbols sd ed cm lg) as [t [est | r | e]]; simpl in *.
    + destruct (solve_objective env _ (fst est) (snd est) rf) as [[clean p] | e]
        eqn:Hsolve; simpl.
      * intros H. inversion H; subst j.
        destruct (solve_objective_cleaned _ _ _ _ _ _ _ Hsolve) as [ef Hef].
        exists ef, clean, p.
        split; [exact Hef | split; [reflexivity | apply rounded_is_rounded_from]].
      * destruct (exn_class e); simpl; discriminate.
    + destruct (Htext r eq_refl) as [msg ->]. discriminate.
    + destruct (exn_class e); simpl; discriminate.
  - unfold full_portfolio_optimization, full_portfolio_optimization_try.
    pose proof (estimates_returns_text env symbols sd ed cm lg) as Htext.
    unfold returned, try_except, bind, trace, outcome, handler in *.
    destruct (estimates env symbols sd ed cm lg) as [t [est | r | e]]; simpl in *.
    + rewrite run_objectives_ends.
      destruct (first_other_exception _); simpl; [discriminate |].
      intros H. inversion H; subst j. eexists. split; [reflexivity |].
      intros k v Hin Hv.
      destruct Hin as [Heq | [Heq | [Heq | []]]]; inversion Heq; subst k v;
        apply (solved_entry env _ _ _ _ _ _ Hv).
    + destruct (Htext r eq_refl) as [msg ->]. discriminate.
    + discriminate.
Qed.

(* ================================================================== *)
(** ** Worked examples on the sample market *)
(* ================================================================== *)

(** An unknown method name shows in the reply. *)
Lemma unknown_method_changes_output :
  ~ In "foo" covariance_methods /\
  returned (optimize_portfolio calm ["AAA"; "BBB"] "2024-01-01" "2024-01-31"
              (2 # 100) "foo" false)
  <> returned (optimize_portfolio calm ["AAA"; "BBB"] "2024-01-01" "2024-01-31"
                 (2 # 100) "sample_cov" false).
Proof.
  split.
  - simpl. intros [H | [H | [H | [H | []]]]]; discriminate H.
  - vm_compute. intros H. discriminate H.
Qed.

Lemma unknown_method_is_sample_cov_witness :
  same_up_to_echo
    (fun m p => optimize_output ["AAA"; "BBB"] "2024-01-01" "2024-01-31"
                  (2 # 100) m false (fst p) (snd p))
    "foo"
    (optimize_portfolio calm ["AAA"; "BBB"] "2024-01-01" "2024-01-31"
       (2 # 100) "foo" false)
    (optimize_portfolio calm ["AAA"; "BBB"] "2024-01-01" "2024-01-31"
       (2 # 100) "sample_cov" false).
Proof.
  apply (unknown_method_is_sample_cov calm "foo").
  simpl. intros [H | [H | [H | [H | []]]]]; discriminate H.
Defined.

(** A [ValueError] of the first objective ends the whole request,
    though the two other objectives can be solved. *)
Lemma other_exception_aborts_objectives :
  estimates starved ["AAA"; "BBB"] "2024-01-01" "2024-01-31" "sample_cov" false
  = (sample_requests, Val (sample_mu, [[1 # 1]])) /\
  solve_objective starved (fun ef => max_sharpe starved ef (2 # 100))
    sample_mu [[1 # 1]] (2 # 100) = Err below_risk_free /\
  solved (solve_objective starved (min_volatility starved)
            sample_mu [[1 # 1]] (2 # 100)) = true /\
  solved (solve_objective starved (fun ef => max_quadratic_utility starved ef 1)
            sample_mu [[1 # 1]] (2 # 100)) = true /\
  returned (full_portfolio_optimization starved ["AAA"; "BBB"]
              "2024-01-01" "2024-01-31" (2 # 100) 1 "sample_cov" false)
  = Ok (Text "Error in full portfolio optimization: at least one of the assets must have an expected return exceeding the risk-free rate").
Proof.
  repeat split.
Qed.

Lemma objectives_fail_independently_witness :
  returned (full_portfolio_optimization stalled ["AAA"; "BBB"]
              "2024-01-01" "2024-01-31" (2 # 100) 1 "sample_cov" false)
  = Ok (Json (full_output ["AAA"; "BBB"] "2024-01-01" "2024-01-31" (2 # 100) 1
                "sample_cov" false
                [ ("max_sharpe", objective_failure "Max Sharpe" infeasible);
                  ("min_volatility",
                   objective_success "min_volatility" (sample_weights MinVol)
                     (12 # 100, 20 # 100, 1 # 2));
                  ("max_utility",
                   objective_success "max_utility" (sample_weights Utility)
                     (12 # 100, 20 # 100, 1 # 2)) ])).
Proof.
  rewrite (proj1 (objectives_fail_independently stalled ["AAA"; "BBB"]
                    "2024-01-01" "2024-01-31" (2 # 100) 1 "sample_cov" false
                    sample_requests sample_mu [[1 # 1]] eq_refl)).
  reflexivity.
Defined.

(** The handle is asked for before the type is looked at. *)
Lemma invalid_info_type_masked :
  ~ In "bogus" valid_info_types /\
  returned (get_company_info unreachable "vci" "bogus" "en")
  = Ok (Text "Error fetching bogus for vci: boom") /\
  returned (get_company_info unreachable "vci" "bogus" "en")
  <> Ok (Text (invalid_info_type "bogus")).
Proof.
  split; [| split].
  - simpl. intuition discriminate.
  - reflexivity.
  - vm_compute. intros H. discriminate H.
Qed.

Lemma invalid_info_type_reply_witness :
  get_company_info calm "vci" "bogus" "en"
  = ([Init "VCI" "VCI"],
     Return (Text "Invalid info_type 'bogus'. Valid types: overview, shareholders, officers, subsidiaries, events, news, reports, ratio_summary, trading_stats")).
Proof.
  apply (invalid_info_type_reply calm "vci" "bogus" "en").
  simpl. intuition discriminate.
Defined.

Lemma empty_table_is_no_complete_data_witness :
  portfolio_tools_end calm ["AAA"; "CCC"] "2024-01-01" "2024-01-31"
    ([ price_request "2024-01-01" "2024-01-31" "AAA";
       price_request "2024-01-01" "2024-01-31" "CCC" ],
     Return (Text "No complete data available after cleaning missing values")).
Proof.
  apply (proj2 (empty_table_is_no_complete_data calm "2024-01-01" "2024-01-31")
           "AAA" "CCC" (sample_series "AAA" [1; 2; 3]%Z)
           (sample_series "CCC" [7; 8]%Z) eq_refl eq_refl).
  simpl. intros d [H | [H | [H | []]]] [H' | [H' | []]]; subst d; discriminate H'.
Defined.

Lemma fetches_in_order_until_failure_witness :
  portfolio_tools_end calm ["AAA"; "ZZZ"; "BBB"] "2024-01-01" "2024-01-31"
    ([ price_request "2024-01-01" "2024-01-31" "AAA";
       price_request "2024-01-01" "2024-01-31" "ZZZ" ],
     Return (Text "No data found for ZZZ between 2024-01-01 and 2024-01-31")).
Proof.
  apply (proj2 (fetches_in_order_until_failure calm "2024-01-01" "2024-01-31")
           ["AAA"] "ZZZ" ["BBB"]).
  - constructor; [| constructor].
    exists (sample_series "AAA" [1; 2; 3]%Z). reflexivity.
  - apply fails_none. reflexivity.
Defined.

(** An infeasible problem in [optimize_portfolio] is not reported in
    the ["Error ...: ..."] shape. *)
Lemma optimization_failed_not_error_form :
  outcome (optimize_portfolio_try stalled ["AAA"; "BBB"] "2024-01-01" "2024-01-31"
             (2 # 100) "sample_cov" false) = Raise infeasible /\
  returned (optimize_portfolio stalled ["AAA"; "BBB"] "2024-01-01" "2024-01-31"
              (2 # 100) "sample_cov" false)
  = Ok (Text "Optimization failed: infeasible") /\
  forall message, ~ error_form "Optimization failed: infeasible" message.
Proof.
  split; [reflexivity | split; [reflexivity |]].
  intros message [what H]. discriminate H.
Qed.

Lemma exceptions_become_messages_witness :
  returned (call_tool starved
              (OptimizePortfolio ["AAA"; "BBB"] "2024-01-01" "2024-01-31"
                 (2 # 100) "sample_cov" false))
  = Ok (Text ("Error " ++ "optimizing portfolio" ++ ": " ++ exn_str below_risk_free)).
Proof.
  apply (proj2 (exceptions_become_messages starved
                  (OptimizePortfolio ["AAA"; "BBB"] "2024-01-01" "2024-01-31"
                     (2 # 100) "sample_cov" false)) below_risk_free).
  reflexivity.
Defined.

(** The optimiser's short position and short sum come back as they
    are, rounded. *)
Lemma negative_weight_is_returned :
  returned (optimize_portfolio skewed ["AAA"; "BBB"] "2024-01-01" "2024-01-31"
              (2 # 100) "sample_cov" false)
  = Ok (Json (optimize_output ["AAA"; "BBB"] "2024-01-01" "2024-01-31" (2 # 100)
                "sample_cov" false
                [("AAA", -100 # 10000); ("BBB", 5000 # 10000)]
                (12 # 100, 20 # 100, 1 # 2))) /\
  ~ non_negative [("AAA", -100 # 10000); ("BBB", 5000 # 10000)] /\
  ~ within_tolerance [("AAA", -100 # 10000); ("BBB", 5000 # 10000)].
Proof.
  split; [reflexivity | split].
  - intros H. inversion H as [| kv w Hneg _]. apply Hneg. reflexivity.
  - intros H. apply H. reflexivity.
Qed.

Lemma returned_weights_are_rounded_witness :
  exists ef clean p,
    clean_weights calm ef = Ok clean /\
    optimize_output ["AAA"; "BBB"] "2024-01-01" "2024-01-31" (2 # 100)
      "sample_cov" false (rounded (sample_weights Sharpe))
      (12 # 100, 20 # 100, 1 # 2)
    = optimize_output ["AAA"; "BBB"] "2024-01-01" "2024-01-31" (2 # 100)
        "sample_cov" false (rounded clean) p /\
    rounded_from clean (rounded clean).
Proof.
  apply (proj1 (returned_weights_are_rounded calm ["AAA"; "BBB"]
                  "2024-01-01" "2024-01-31" (2 # 100) 1 "sample_cov" false _)).
  reflexivity.
Defined.

Lemma cleaned_table_bounded_witness :
  (List.length (rows (dropna (concat [ sample_series "AAA" [1; 2; 3]%Z;
                                       sample_series "CCC" [7; 8]%Z ])))
   <= List.length (snd (sample_series "CCC" [7; 8]%Z)))%nat.
Proof.
  apply (proj1 (cleaned_table_bounded [ sample_series "AAA" [1; 2; 3]%Z;
                                        sample_series "CCC" [7; 8]%Z ])).
  right. left. reflexivity.
Defined.

Lemma statements_sorted_by_year_witness :
  sorted_statement calm (Finance_income_statement "VCI" "VCI" "year" "en")
    (JArr (map row_json (sort_rows "yearReport" sample_statement))).
Proof.
  apply (proj1 (statements_sorted_by_year calm "vci" "en"
                  (JArr (map row_json (sort_rows "yearReport" sample_statement))))).
  reflexivity.
Defined.

(** A symbol in lower case shows in the "no data" message. *)
Lemma lower_case_symbol_is_quoted :
  returned (get_income_statement calm "vcx" "en")
  = Ok (Text "No income statement data found for vcx") /\
  returned (get_income_statement calm (upper "vcx") "en")
  = Ok (Text "No income statement data found for VCX") /\
  returned (get_income_statement calm "vcx" "en")
  <> returned (get_income_statement calm (upper "vcx") "en").
Proof.
  split; [reflexivity | split; [reflexivity |]].
  vm_compute. intros H. discriminate H.
Qed.

(* ================================================================== *)
(** ** Further properties of the single-request tools *)
(* ================================================================== *)

Lemma request_fetched (env : Env) (r : Request) : fetched_by env (request env r).
Proof.
  split.
  - intros df H. exists r. split; [left; reflexivity |].
    unfold request, outcome in H. simpl in H.
    destruct (data_source env r); simpl in H; [| discriminate H].
    inversion H. reflexivity.
  - intros reply H. unfold request, outcome in H. simpl in H.
    destruct (data_source env r); discriminate H.
Qed.

Lemma message_fetched (env : Env) (msg : string) :
  fetched_by env (return_ (Text msg)).
Proof.
  split.
  - intros df H. discriminate H.
  - intros reply H. inversion H. exists msg. reflexivity.
Qed.

(** A fetch, the empty check and the serialisation: a JSON reply is
    the fetched frame, which has a row. *)
Lemma passed_through (env : Env) (req : IO (option DataFrame))
    (nodata prefix : string) (j : json) :
  fetched_by env req ->
  returned (try_except (df <- req ;; df <- or_return df nodata ;; return_ (to_json df))
                       (handler prefix)) = Ok (Json j) ->
  frame_reply env
    (trace (try_except
              (df <- req ;; df <- or_return df nodata ;; return_ (to_json df))
              (handler prefix)))
    true j.
Proof.
  intros [Hval Hret].
  unfold returned, try_except, bind, or_return, handler, outcome, trace in *.
  destruct req as [t [[[| [| c row] rest] |] | r | e]]; simpl in *; try easy.
  - intros H. inversion H; subst j.
    destruct (Hval _ eq_refl) as [r [Hin Hsrc]].
    exists r, (c :: row), rest, ((c :: row) :: rest). rewrite !app_nil_r.
    repeat split; auto.
  - destruct (Hret r eq_refl) as [msg ->]. easy.
Qed.

Lemma passed_through_stock (env : Env) (symbol source : string)
    (req : IO (option DataFrame)) (nodata prefix : string) (j : json) :
  fetched_by env req ->
  returned (try_except
              (stock env symbol source ;;;
               df <- req ;; df <- or_return df nodata ;; return_ (to_json df))
              (handler prefix)) = Ok (Json j) ->
  frame_reply env
    (trace (try_except
              (stock env symbol source ;;;
               df <- req ;; df <- or_return df nodata ;; return_ (to_json df))
              (handler prefix)))
    true j.
Proof.
  intros [Hval Hret].
  unfold returned, try_except, bind, or_return, handler, outcome, trace, stock in *.
  destruct (vnstock_stock env symbol source); simpl; [| easy].
  destruct req as [t [[[| [| c row] rest] |] | r | e]]; simpl in *; try easy.
  - intros H. inversion H; subst j.
    destruct (Hval _ eq_refl) as [r [Hin Hsrc]].
    exists r, (c :: row), rest, ((c :: row) :: rest). rewrite !app_nil_r.
    repeat split; auto. right. exact Hin.
  - destruct (Hret r eq_refl) as [msg ->]. easy.
Qed.

Lemma sorted_through (env : Env) (symbol : string) (r : Request)
    (nodata prefix : string) (j : json) :
  returned
    (try_except
       (stock env symbol "VCI" ;;;
        df <- request env r ;;
        df <- or_return df nodata ;;
        df <- lift (sort_values "yearReport" df) ;;
        return_ (to_json df))
       (handler prefix)) = Ok (Json j) ->
  frame_reply env
    (trace (try_except
       (stock env symbol "VCI" ;;;
        df <- request env r ;;
        df <- or_return df nodata ;;
        df <- lift (sort_values "yearReport" df) ;;
        return_ (to_json df))
       (handler prefix)))
    false j.
Proof.
  unfold returned, outcome, try_except, bind, stock, request, handler, trace.
  destruct (vnstock_stock env symbol "VCI") as [u | e]; simpl; [| easy].
  destruct (data_source env r) as [df | e] eqn:Hsrc;
    cbn -[or_return sort_values]; [| easy].
  destruct (or_return_ends df nodata) as [-> | (row & l & -> & _ & ->)];
    cbn -[sort_values]; [easy |].
  destruct (sort_values "yearReport" (row :: l)) as [sorted | e] eqn:Hsort;
    cbn; [| easy].
  apply sort_values_ok in Hsort as (-> & _ & _).
  intros H. inversion H; subst j; clear H.
  destruct (sort_rows_spec "yearReport" (row :: l)) as [Hs Hp].
  exists r, row, l, (sort_rows "yearReport" (row :: l)).
  repeat split; auto; try (intros Hk; discriminate Hk).
  right. left. reflexivity.
Qed.

(** X2.  When a tool other than the portfolio tools and
    [get_financial_ratios] answers with JSON, the JSON is the records
    of a frame the tool fetched, that frame has at least one row, and
    the records are in the fetched order unless the tool is one of the
    three statements, which only rearrange them. *)
Theorem json_reply_is_fetched_frame (env : Env) (t : ToolCall) (j : json) :
  returns_fetched_frame t = true ->
  returned (call_tool env t) = Ok (Json j) ->
  frame_reply env (trace (call_tool env t)) (negb (sorts_by_year t)) j.
Proof.
  intros Hf H. destruct t; try discriminate Hf; clear Hf;
    cbv beta iota delta [call_tool sorts_by_year negb] in *;
    try (apply passed_through; [apply request_fetched | exact H]);
    try (apply sorted_through; exact H).
  - apply passed_through; [| exact H].
    destruct (existsb _ _); apply request_fetched.
  - apply passed_through_stock; [apply request_fetched | exact H].
  - apply passed_through_stock; [| exact H].
    repeat match goal with
           | |- fetched_by _ (if ?c then _ else _) => destruct c
           end; apply request_fetched || apply message_fetched.
Qed.

Lemma trace_or_return (df : option DataFrame) (msg : string) :
  trace (or_return df msg) = [].
Proof. destruct df as [[| [| c r] l] |]; reflexivity. Qed.

Lemma trace_bind_le {A B : Type} (m : IO A) (k : A -> IO B) (n : nat) :
  (forall a, (List.length (trace (k a)) <= n)%nat) ->
  (List.length (trace (bind m k)) <= List.length (trace m) + n)%nat.
Proof.
  intros H. unfold bind, trace in *. destruct (snd m); simpl; try lia.
  rewrite length_app. specialize (H a). lia.
Qed.

(** The tail every frame tool shares after its request: the empty
    check, local processing, the serialisation. *)
Ltac silent_tail :=
  repeat (intros;
          first [ reflexivity
                | apply trace_lift
                | apply trace_or_return
                | rewrite trace_bind_quiet
                | match goal with
                  | |- context [if ?c then _ else _] => destruct c
                  end ]).

Lemma one_request (env : Env) (r : Request) (K : option DataFrame -> Body)
    (prefix : string) :
  (forall df, trace (K df) = []) ->
  trace (try_except (bind (request env r) K) (handler prefix)) = [Fetch r].
Proof.
  intros HK. rewrite trace_try_quiet by reflexivity.
  rewrite trace_bind_quiet by exact HK. reflexivity.
Qed.

Lemma handle_then_request (env : Env) (symbol source : string)
    (req : IO (option DataFrame)) (K : option DataFrame -> Body) (prefix : string) :
  (List.length (trace req) <= 1)%nat ->
  (forall df, trace (K df) = []) ->
  (List.length (trace (try_except (stock env symbol source ;;; bind req K)
                                  (handler prefix))) <= 2)%nat.
Proof.
  intros Hreq HK. rewrite trace_try_quiet by reflexivity.
  apply (trace_bind_le (stock env symbol source) _ 1).
  intros _. rewrite trace_bind_quiet by exact HK. exact Hreq.
Qed.

Ltac unfold_blocks :=
  unfold get_stock_history_try, get_forex_history_try, get_crypto_history_try,
    get_index_history_try, get_income_statement_try, get_balance_sheet_try,
    get_cash_flow_try, get_financial_ratios_try, get_dividend_history_try,
    get_sjc_gold_price_try, get_btmc_gold_price_try, get_vcb_exchange_rate_try,
    get_company_info_try, get_fund_listing_try, search_funds_try,
    get_fund_nav_report_try, get_fund_top_holdings_try,
    get_fund_industry_allocation_try, get_fund_asset_allocation_try.

(** X3.  No tool asks twice: a single-request tool sends one request,
    a tool that first takes a stock handle sends at most the handle
    request and one data request, and a portfolio tool sends at most
    one request per listed symbol. *)
Theorem requests_within_budget (env : Env) (t : ToolCall) :
  (List.length (trace (call_tool env t)) <= request_budget t)%nat.
Proof.
  destruct t; cbv beta iota delta [call_tool request_budget];
    try (first [ rewrite trace_calculate_returns
               | rewrite trace_optimize_portfolio
               | rewrite trace_full_portfolio_optimization ];
         destruct (fetch_all_prefix env start_date end_date symbols []) as [n ->];
         rewrite length_map, length_firstn; lia);
    unfold_tools; unfold_blocks;
    try (rewrite one_request by silent_tail; simpl; lia);
    try (apply handle_then_request; [simpl; lia | silent_tail]).
  - rewrite trace_try_quiet by reflexivity.
    rewrite trace_bind_quiet by silent_tail. destruct (existsb _ _); simpl; lia.
  - apply handle_then_request; [| silent_tail].
    repeat match goal with
           | |- context [if ?c then _ else _] => destruct c
           end; simpl; lia.
Qed.

(* ================================================================== *)
(** ** The year column *)
(* ================================================================== *)

Lemma unsortable_reply (env : Env) (symbol : string) (r : Request)
    (nodata prefix : string) (df : DataFrame) :
  vnstock_stock env symbol "VCI" = Ok tt ->
  data_source env r = Ok (Some df) ->
  df_empty df = false ->
  has_column "yearReport" df = false ->
  returned
    (try_except
       (stock env symbol "VCI" ;;;
        df <- request env r ;;
        df <- or_return df nodata ;;
        df <- lift (sort_values "yearReport" df) ;;
        return_ (to_json df))
       (handler prefix)) = Ok (Text (prefix ++ "'yearReport'")).
Proof.
  intros Hinit Hsrc Hrows Hcol.
  assert (Hsort : sort_values "yearReport" df
                  = Err (mkExn OtherException "'yearReport'")).
  { unfold sort_values. rewrite Hcol. reflexivity. }
  unfold returned, outcome, try_except, bind, stock, request, handler, or_return.
  rewrite Hinit, Hsrc. cbn -[sort_values df_empty]. rewrite Hrows.
  cbn -[sort_values]. rewrite Hsort. reflexivity.
Qed.

(** X4.  A statement frame that has rows and columns but no
    [yearReport] column is not returned: the [KeyError] of the sort
    comes back as the tool's error message, for each of the three
    statements. *)
Theorem statement_without_year_is_error (env : Env) (symbol lang : string)
    (df : DataFrame) :
  vnstock_stock env (upper symbol) "VCI" = Ok tt ->
  df_empty df = false ->
  has_column "yearReport" df = false ->
  (data_source env (Finance_income_statement (upper symbol) "VCI" "year" lang)
   = Ok (Some df) ->
   returned (get_income_statement env symbol lang)
   = Ok (Text (("Error fetching income statement for " ++ symbol ++ ": ")
               ++ "'yearReport'"))) /\
  (data_source env (Finance_balance_sheet (upper symbol) "VCI" "year" lang)
   = Ok (Some df) ->
   returned (get_balance_sheet env symbol lang)
   = Ok (Text (("Error fetching balance sheet for " ++ symbol ++ ": ")
               ++ "'yearReport'"))) /\
  (data_source env (Finance_cash_flow (upper symbol) "VCI" "year" lang)
   = Ok (Some df) ->
   returned (get_cash_flow env symbol lang)
   = Ok (Text (("Error fetching cash flow for " ++ symbol ++ ": ")
               ++ "'yearReport'"))).
Proof.
  intros Hinit Hrows Hcol. repeat split; intros Hsrc;
    exact (unsortable_reply env _ _ _ _ df Hinit Hsrc Hrows Hcol).
Qed.

Lemma statement_without_year_is_error_witness :
  returned (get_income_statement odd "vci" "en")
  = Ok (Text "Error fetching income statement for vci: 'yearReport'").
Proof.
  apply (proj1 (statement_without_year_is_error odd "vci" "en" unsorted_ratios
                  eq_refl eq_refl eq_refl)).
  reflexivity.
Defined.





(* ================================================================== *)
(** ** Edge inputs *)
(* ================================================================== *)

(** X7.  When the source has no SJC prices, the message names the date
    asked for, and calls both a missing date and an empty date string
    "current date"; the request carries the date as it was passed. *)
Theorem sjc_no_data_names_the_date (env : Env) (date : option string) :
  data_source env (Sjc_gold_price date) = Ok None \/
  data_source env (Sjc_gold_price date) = Ok (Some []) ->
  get_sjc_gold_price env date
  = ([Fetch (Sjc_gold_price date)],
     Return (Text ("No SJC gold price data found for " ++ date_label date))).
Proof.
  intros H. unfold get_sjc_gold_price, get_sjc_gold_price_try.
  unfold try_except, bind, request, handler, outcome, or_return, date_label.
  destruct H as [H | H]; rewrite H; simpl;
    destruct date as [[| c d] |]; reflexivity.
Qed.

Lemma sjc_no_data_names_the_date_witness :
  get_sjc_gold_price calm (Some "")
  = ([Fetch (Sjc_gold_price (Some ""))],
     Return (Text "No SJC gold price data found for current date")).
Proof.
  apply (sjc_no_data_names_the_date calm (Some "")). left. reflexivity.
Defined.

(** X8.  With an empty list of symbols the three portfolio tools ask
    the source for nothing and return the message that no data was
    found for any symbol. *)
Theorem no_symbols_no_requests (env : Env) (start_date end_date : string) :
  portfolio_tools_end env [] start_date end_date
    ([], Return (Text "No data found for any symbols")).
Proof.
  apply portfolio_returns_early. reflexivity.
Qed.

(* ================================================================== *)
(** ** Further properties of the portfolio tools *)
(* ================================================================== *)

(** X9.  Two documented parameters change nothing that is fetched or
    computed: [method] of [calculate_returns] is only repeated in the
    JSON, whose other fields are the same for any two method names,
    and [lang] of [get_company_info] has no effect at all. *)
Theorem parameters_without_effect (env : Env) :
  (forall symbols sd ed method1 method2 lg,
      same_payload (returns_output symbols sd ed method1 lg)
                   (returns_output symbols sd ed method2 lg)
                   (calculate_returns env symbols sd ed method1 lg)
                   (calculate_returns env symbols sd ed method2 lg)) /\
  (forall symbol info_type lang1 lang2,
      get_company_info env symbol info_type lang1
      = get_company_info env symbol info_type lang2).
Proof.
  split; [| reflexivity].
  intros. unfold calculate_returns, calculate_returns_try.
  pose proof (price_table_ends env symbols sd ed) as Hends.
  unfold same_payload, try_except, bind, trace, outcome, handler in *.
  destruct (price_table env symbols sd ed) as [t [tb | r | e]]; simpl in *.
  - destruct (mean_historical_return env tb lg) as [mu | e]; simpl.
    + split; [reflexivity |]. exists mu. split; reflexivity.
    + split; reflexivity.
  - destruct Hends as [[tb H] | [msg H]]; inversion H. split; reflexivity.
  - destruct Hends as [[tb H] | [msg H]]; discriminate H.
Qed.

Lemma full_output_entries (symbols : list string) (sd ed : string) (rf ra : Q)
    (cm : string) (lg : bool) (o1 o2 : list (string * json)) :
  full_output symbols sd ed rf ra cm lg o1 = full_output symbols sd ed rf ra cm lg o2 ->
  o1 = o2.
Proof.
  unfold full_output. intros H. inversion H. reflexivity.
Qed.

(** X10.  On the same estimates, [optimize_portfolio] is the
    maximum-Sharpe objective of [full_portfolio_optimization]: it
    returns the rounded weights and metrics of that solve, or
    "Optimization failed" for an [OptimizationError], or its error
    message; and whenever the full tool returns JSON, its [max_sharpe]
    entry is the entry of that same solve. *)
Theorem max_sharpe_is_shared (env : Env) (symbols : list string) (sd ed : string)
    (rf ra : Q) (cm : string) (lg : bool) (t : list Event) (mu : Mu) (S : Matrix) :
  estimates env symbols sd ed cm lg = (t, Val (mu, S)) ->
  let sharpe := solve_objective env (fun ef => max_sharpe env ef rf) mu S rf in
  optimize_portfolio env symbols sd ed rf cm lg
  = (t, Return
          match sharpe with
          | Ok (clean, performance) =>
              Json (optimize_output symbols sd ed rf cm lg (rounded clean) performance)
          | Err e =>
              Text ((if is_optimization_error e
                     then "Optimization failed: "
                     else "Error optimizing portfolio: ") ++ exn_str e)
          end)
  /\
  (forall optimizations,
      returned (full_portfolio_optimization env symbols sd ed rf ra cm lg)
      = Ok (Json (full_output symbols sd ed rf ra cm lg optimizations)) ->
      dict_get "max_sharpe" optimizations
      = Some (entry "max_sharpe" "Max Sharpe" sharpe)).
Proof.
  intros Hest sharpe. split.
  - unfold optimize_portfolio, optimize_portfolio_try.
    rewrite (bind_val _ _ _ _ Hest). simpl fst. simpl snd. fold sharpe.
    unfold try_except, bind, trace, outcome, handler, is_optimization_error.
    destruct sharpe as [[clean p] | e]; simpl.
    + rewrite !app_nil_r. reflexivity.
    + destruct (exn_class e); simpl; rewrite !app_nil_r; reflexivity.
  - intros optimizations.
    unfold full_portfolio_optimization, full_portfolio_optimization_try.
    rewrite (bind_val _ _ _ _ Hest). simpl fst. simpl snd.
    rewrite run_objectives_ends. fold sharpe.
    unfold returned, try_except, bind, trace, outcome, handler.
    destruct (first_other_exception _); simpl; [discriminate |].
    intros H.
    assert (Hj : forall a b : json, Ok (Json a) = Ok (Json b) -> a = b)
      by (intros a b E; inversion E; reflexivity).
    apply Hj, full_output_entries in H. subst optimizations. reflexivity.
Qed.

Lemma max_sharpe_is_shared_witness :
  optimize_portfolio stalled ["AAA"; "BBB"] "2024-01-01" "2024-01-31" (2 # 100)
    "sample_cov" false
  = (sample_requests, Return (Text "Optimization failed: infeasible")).
Proof.
  apply (proj1 (max_sharpe_is_shared stalled ["AAA"; "BBB"] "2024-01-01"
                  "2024-01-31" (2 # 100) 1 "sample_cov" false
                  sample_requests sample_mu [[1 # 1]] eq_refl)).
Defined.

(** X11.  A price frame that has rows and columns but lacks the
    [time] or the [close] column stops the loop like a failed fetch:
    the portfolio tools return that symbol's error message and request
    no later symbol. *)
Theorem frame_without_prices_stops_loop (env : Env) (sd ed : string)
    (pre post : list string) (s : string) (df : DataFrame) :
  Forall (fun x => fetch_succeeds env x sd ed) pre ->
  data_source env (Quote_history s "VCI" sd ed "1D") = Ok (Some df) ->
  df_empty df = false ->
  has_column "time" df && has_column "close" df = false ->
  exists msg,
    portfolio_tools_end env (pre ++ s :: post)%list sd ed
      (map (price_request sd ed) (pre ++ [s])%list,
       Return (Text ("Error fetching data for " ++ s ++ ": " ++ msg))).
Proof.
  intros Hpre Hsrc Hrows Hcol. eexists.
  apply portfolio_returns_early. unfold price_table.
  apply bind_return, fetch_all_stops; [assumption |].
  unfold fetch_symbol, try_except, bind, request, outcome, price_request,
    time_close, or_return.
  rewrite Hsrc. cbn -[has_column df_empty]. rewrite Hrows.
  cbn -[has_column]. rewrite Hcol. reflexivity.
Qed.

Lemma frame_without_prices_stops_loop_witness :
  exists msg,
    portfolio_tools_end odd ["AAA"; "BBB"] "2024-01-01" "2024-01-31"
      ([price_request "2024-01-01" "2024-01-31" "AAA"],
       Return (Text ("Error fetching data for " ++ "AAA" ++ ": " ++ msg))).
Proof.
  apply (frame_without_prices_stops_loop odd "2024-01-01" "2024-01-31"
           [] ["BBB"] "AAA" [ [("time", Num (1 # 1)); ("open", Num (5 # 1))] ]).
  - constructor.
  - reflexivity.
  - reflexivity.
  - reflexivity.
Defined.

Lemma json_reply_is_fetched_frame_witness :
  frame_reply calm
    (trace (call_tool calm (GetIncomeStatement "vci" "en"))) false
    (JArr (map row_json (sort_rows "yearReport" sample_statement))).
Proof.
  apply (json_reply_is_fetched_frame calm (GetIncomeStatement "vci" "en")).
  - reflexivity.
  - reflexivity.
Defined.

(** X12.  Once the stock handle is there, [get_company_info] returns
    the invalid-type message exactly when [info_type] is none of the
    nine listed names, compared as written. *)
Theorem invalid_message_iff_unlisted (env : Env) (symbol info_type lang : string) :
  vnstock_stock env (upper symbol) "VCI" = Ok tt ->
  (returned (get_company_info env symbol info_type lang)
   = Ok (Text (invalid_info_type info_type))
   <-> ~ In info_type valid_info_types).
Proof.
  intros Hinit. split.
  - intros H Hin. revert H.
    unfold get_company_info, get_company_info_try.
    unfold returned, try_except, bind, stock, request, handler, outcome, or_return.
    rewrite Hinit.
    simpl in Hin.
    repeat (destruct Hin as [<- | Hin];
            [ cbn -[data_source append];
              match goal with
              | |- context [data_source env ?r] =>
                  destruct (data_source env r) as [[[| [| c row] rest] |] | e]
              end; cbn; intros H; discriminate H |]).
    destruct Hin.
  - intros H. apply not_listed in H. simpl in H.
    repeat (apply andb_prop in H; destruct H as [?H H]).
    repeat match goal with
           | E : negb _ = true |- _ => apply negb_true_iff in E
           end.
    unfold get_company_info, get_company_info_try.
    repeat match goal with
           | E : (info_type =? _) = false |- _ => rewrite E; clear E
           end.
    unfold returned, try_except, bind, stock, handler, outcome.
    rewrite Hinit. reflexivity.
Qed.

Lemma invalid_message_iff_unlisted_witness :
  ~ In "Overview" valid_info_types.
Proof.
  apply (invalid_message_iff_unlisted calm "vci" "Overview" "en" eq_refl).
  reflexivity.
Defined.

(** X13.  When all three objectives end with [OptimizationError], the
    request still succeeds: the JSON carries three failure entries and
    a summary that lists no objective. *)
Theorem all_infeasible_is_still_json (env : Env) (symbols : list string)
    (sd ed : string) (rf ra : Q) (cm : string) (lg : bool)
    (t : list Event) (mu : Mu) (S : Matrix) (e1 e2 e3 : exn) :
  estimates env symbols sd ed cm lg = (t, Val (mu, S)) ->
  solve_objective env (fun ef => max_sharpe env ef rf) mu S rf = Err e1 ->
  solve_objective env (min_volatility env) mu S rf = Err e2 ->
  solve_objective env (fun ef => max_quadratic_utility env ef ra) mu S rf = Err e3 ->
  exn_class e1 = OptimizationError ->
  exn_class e2 = OptimizationError ->
  exn_class e3 = OptimizationError ->
  let optimizations :=
    [ ("max_sharpe", objective_failure "Max Sharpe" e1);
      ("min_volatility", objective_failure "Min volatility" e2);
      ("max_utility", objective_failure "Max utility" e3) ] in
  full_portfolio_optimization env symbols sd ed rf ra cm lg
  = (t, Return (Json (full_output symbols sd ed rf ra cm lg optimizations)))
  /\ successful_opts optimizations = [].
Proof.
  intros Hest H1 H2 H3 C1 C2 C3 optimizations. split; [| reflexivity].
  unfold full_portfolio_optimization, full_portfolio_optimization_try.
  rewrite (bind_val _ _ _ _ Hest). simpl fst. simpl snd.
  rewrite run_objectives_ends. rewrite H1, H2, H3.
  unfold first_other_exception, other_exception, is_optimization_error.
  rewrite C1, C2, C3.
  unfold try_except, bind, trace, outcome, handler, entry. simpl.
  rewrite !app_nil_r. reflexivity.
Qed.

Lemma all_infeasible_is_still_json_witness :
  successful_opts
    [ ("max_sharpe", objective_failure "Max Sharpe" infeasible);
      ("min_volatility", objective_failure "Min volatility" infeasible);
      ("max_utility", objective_failure "Max utility" infeasible) ] = [] /\
  returned (full_portfolio_optimization all_infeasible ["AAA"; "BBB"]
              "2024-01-01" "2024-01-31" (2 # 100) 1 "sample_cov" false)
  = Ok (Json (full_output ["AAA"; "BBB"] "2024-01-01" "2024-01-31" (2 # 100) 1
                "sample_cov" false
                [ ("max_sharpe", objective_failure "Max Sharpe" infeasible);
                  ("min_volatility", objective_failure "Min volatility" infeasible);
                  ("max_utility", objective_failure "Max utility" infeasible) ])).
Proof.
  destruct (all_infeasible_is_still_json all_infeasible ["AAA"; "BBB"]
              "2024-01-01" "2024-01-31" (2 # 100) 1 "sample_cov" false
              sample_requests sample_mu [[1 # 1]] infeasible infeasible infeasible
              eq_refl eq_refl eq_refl eq_refl eq_refl eq_refl eq_refl) as [H1 H2].
  split; [exact H2 |]. rewrite H1. reflexivity.
Defined.

Lemma fetch_all_complete (env : Env) (sd ed : string) (symbols : list string) :
  forall all_data result,
    outcome (fetch_all env symbols sd ed all_data) = Val result ->
    trace (fetch_all env symbols sd ed all_data) = map (price_request sd ed) symbols.
Proof.
  induction symbols as [| x rest IH]; intros all_data result; simpl.
  - reflexivity.
  - pose proof (fetch_symbol_trace env sd ed x) as Ht.
    unfold bind, outcome, trace in *.
    destruct (fetch_symbol env x sd ed) as [tx [series | r | e]]; simpl in *;
      try discriminate.
    intros H. rewrite Ht. simpl. f_equal. exact (IH _ _ H).
Qed.

Lemma table_needs_every_symbol (env : Env) (symbols : list string) (sd ed : string)
    (tb : PriceTable) :
  outcome (price_table env symbols sd ed) = Val tb ->
  symbols <> [] /\
  trace (fetch_all env symbols sd ed []) = map (price_request sd ed) symbols.
Proof.
  unfold price_table, bind, outcome. intros H.
  destruct (fetch_all env symbols sd ed []) as [t [res | r | e]] eqn:Hf;
    simpl in H; try discriminate H.
  split.
  - intros ->. simpl in Hf. inversion Hf; subst. discriminate H.
  - change t with (trace (t, @Val (list PriceSeries) res)). rewrite <- Hf.
    apply (fetch_all_complete env sd ed symbols [] res). rewrite Hf. reflexivity.
Qed.

Lemma estimates_need_table (env : Env) (symbols : list string) (sd ed cm : string)
    (lg : bool) (est : Mu * Matrix) :
  outcome (estimates env symbols sd ed cm lg) = Val est ->
  exists tb, outcome (price_table env symbols sd ed) = Val tb.
Proof.
  unfold estimates, bind, outcome.
  destruct (price_table env symbols sd ed) as [t [tb | r | e]]; simpl;
    try discriminate.
  intros _. exists tb. reflexivity.
Qed.

(** X14.  A JSON reply of a portfolio tool means the list of symbols
    was not empty and every symbol was requested, once per occurrence
    and in the order of the list. *)
Theorem json_reply_requested_every_symbol (env : Env) (symbols : list string)
    (sd ed : string) (j : json) :
  (forall method lg,
      returned (calculate_returns env symbols sd ed method lg) = Ok (Json j) ->
      symbols <> [] /\
      trace (calculate_returns env symbols sd ed method lg)
      = map (price_request sd ed) symbols) /\
  (forall rf cm lg,
      returned (optimize_portfolio env symbols sd ed rf cm lg) = Ok (Json j) ->
      symbols <> [] /\
      trace (optimize_portfolio env symbols sd ed rf cm lg)
      = map (price_request sd ed) symbols) /\
  (forall rf ra cm lg,
      returned (full_portfolio_optimization env symbols sd ed rf ra cm lg)
      = Ok (Json j) ->
      symbols <> [] /\
      trace (full_portfolio_optimization env symbols sd ed rf ra cm lg)
      = map (price_request sd ed) symbols).
Proof.
  repeat match goal with |- _ /\ _ => split end; intros.
  - rewrite trace_calculate_returns.
    pose proof (price_table_ends env symbols sd ed) as Hends.
    pose proof (table_needs_every_symbol env symbols sd ed) as Hneed.
    unfold calculate_returns, calculate_returns_try in H.
    unfold returned, try_except, bind, outcome, handler in *.
    destruct (price_table env symbols sd ed) as [t [tb | r | e]]; simpl in *.
    + exact (Hneed tb eq_refl).
    + destruct Hends as [[tb Hv] | [msg Hr]];
        [discriminate Hv | inversion Hr; subst; discriminate H].
    + discriminate H.
  - rewrite trace_optimize_portfolio.
    pose proof (estimates_returns_text env symbols sd ed cm lg) as Htext.
    pose proof (estimates_need_table env symbols sd ed cm lg) as Htb.
    unfold optimize_portfolio, optimize_portfolio_try in H.
    unfold returned, try_except, bind, outcome, handler in *.
    destruct (estimates env symbols sd ed cm lg) as [t [est | r | e]]; simpl in *.
    + destruct (Htb est eq_refl) as [tb Hv].
      exact (table_needs_every_symbol env symbols sd ed tb Hv).
    + destruct (Htext r eq_refl) as [msg ->]. discriminate H.
    + destruct (exn_class e); discriminate H.
  - rewrite trace_full_portfolio_optimization.
    pose proof (estimates_returns_text env symbols sd ed cm lg) as Htext.
    pose proof (estimates_need_table env symbols sd ed cm lg) as Htb.
    unfold full_portfolio_optimization, full_portfolio_optimization_try in H.
    unfold returned, try_except, bind, outcome, handler in *.
    destruct (estimates env symbols sd ed cm lg) as [t [est | r | e]]; simpl in *.
    + destruct (Htb est eq_refl) as [tb Hv].
      exact (table_needs_every_symbol env symbols sd ed tb Hv).
    + destruct (Htext r eq_refl) as [msg ->]. discriminate H.
    + discriminate H.
Qed.

Lemma json_reply_requested_every_symbol_witness :
  ["AAA"; "BBB"] <> [] /\
  trace (optimize_portfolio calm ["AAA"; "BBB"] "2024-01-01" "2024-01-31"
           (2 # 100) "sample_cov" false)
  = map (price_request "2024-01-01" "2024-01-31") ["AAA"; "BBB"].
Proof.
  apply (proj1 (proj2 (json_reply_requested_every_symbol calm ["AAA"; "BBB"]
                         "2024-01-01" "2024-01-31"
                         (optimize_output ["AAA"; "BBB"] "2024-01-01" "2024-01-31"
                            (2 # 100) "sample_cov" false
                            (rounded (sample_weights Sharpe))
                            (12 # 100, 20 # 100, 1 # 2))))
           (2 # 100) "sample_cov" false).
  reflexivity.
Defined.

Lemma time_close_named (env : Env) (symbol : string) (df : DataFrame)
    (series : PriceSeries) :
  time_close env symbol df = Ok series -> fst series = symbol.
Proof.
  unfold time_close, ext_bind.
  destruct (has_column "time" df && has_column "close" df); [| discriminate].
  destruct (ext_map _ df) as [s | e]; [| discriminate].
  intros H. inversion H. reflexivity.
Qed.

Lemma fetch_symbol_named (env : Env) (symbol sd ed : string) (series : PriceSeries) :
  outcome (fetch_symbol env symbol sd ed) = Val series -> fst series = symbol.
Proof.
  pose proof (time_close_named env symbol) as Hn.
  unfold fetch_symbol, try_except, bind, request, outcome.
  destruct (data_source env _) as [[[| [| c row] rest] |] | e];
    cbn -[time_close]; try easy.
  destruct (time_close _ _ _) as [s | e] eqn:Htc; cbn; [| easy].
  intros H. inversion H; subst. exact (Hn _ _ Htc).
Qed.

Lemma fetch_all_named (env : Env) (sd ed : string) (symbols : list string) :
  forall all_data result,
    outcome (fetch_all env symbols sd ed all_data) = Val result ->
    map fst result = (map fst all_data ++ symbols)%list.
Proof.
  induction symbols as [| x rest IH]; intros all_data result; simpl.
  - intros H. inversion H. rewrite app_nil_r. reflexivity.
  - pose proof (fetch_symbol_named env x sd ed) as Hn.
    unfold bind, outcome in *.
    destruct (fetch_symbol env x sd ed) as [tx [series | r | e]]; simpl in *;
      try discriminate.
    intros H. rewrite (IH _ _ H), map_app, <- app_assoc. simpl.
    rewrite (Hn series eq_refl). reflexivity.
Qed.

(** X16.  The table the estimators receive has one column per listed
    symbol, named by the symbols in the order of the list, at least
    one row, as many cells in every row as there are symbols, and no
    missing cell. *)
Theorem estimators_get_a_complete_table (env : Env) (symbols : list string)
    (sd ed : string) (tb : PriceTable) :
  outcome (price_table env symbols sd ed) = Val tb ->
  columns tb = symbols /\
  rows tb <> [] /\
  Forall (fun r => List.length (snd r) = List.length symbols) (rows tb) /\
  no_missing_cell tb.
Proof.
  unfold price_table, bind, outcome. intros H.
  pose proof (fetch_all_named env sd ed symbols []) as Hn.
  unfold outcome in Hn.
  destruct (fetch_all env symbols sd ed []) as [t [res | r | e]];
    simpl in *; try discriminate H.
  specialize (Hn res eq_refl).
  unfold combine in H. destruct res as [| s l]; [discriminate H |].
  destruct (table_empty (dropna (concat (s :: l)))) eqn:He; [discriminate H |].
  inversion H; subst tb; clear H.
  split; [exact Hn |]. split; [| split].
  - unfold table_empty in He. intros Hr. rewrite Hr in He. discriminate He.
  - apply Forall_forall. intros r Hr. unfold dropna, concat in Hr. simpl rows in Hr.
    apply filter_In in Hr as [Hr _].
    apply in_map_iff in Hr as [d [<- _]]. simpl snd.
    rewrite <- Hn. simpl. rewrite !length_map. reflexivity.
  - apply cleaned_no_missing.
Qed.

Lemma estimators_get_a_complete_table_witness :
  columns (dropna (concat [ sample_series "AAA" [1; 2; 3]%Z;
                            sample_series "BBB" [2; 3; 4]%Z ]))
  = ["AAA"; "BBB"].
Proof.
  apply (estimators_get_a_complete_table calm ["AAA"; "BBB"]
           "2024-01-01" "2024-01-31").
  reflexivity.
Defined.

Lemma no_handle_no_request (env : Env) (symbol source : string)
    (K : unit -> Body) (prefix : string) (e : exn) :
  vnstock_stock env symbol source = Err e ->
  try_except (bind (stock env symbol source) K) (handler prefix)
  = ([Init symbol source], Return (Text (prefix ++ exn_str e))).
Proof.
  intros H. unfold try_except, bind, stock, handler, outcome. rewrite H. reflexivity.
Qed.

(** X17.  When the stock handle cannot be created, the six tools that
    start from a handle send no data request and return their error
    message with the exception's text. *)
Theorem no_handle_no_data_request (env : Env) (symbol : string) (e : exn) :
  (vnstock_stock env (upper symbol) "VCI" = Err e ->
   forall lang info_type,
     get_income_statement env symbol lang
     = ([Init (upper symbol) "VCI"],
        Return (Text (("Error fetching income statement for " ++ symbol ++ ": ")
                      ++ exn_str e))) /\
     get_balance_sheet env symbol lang
     = ([Init (upper symbol) "VCI"],
        Return (Text (("Error fetching balance sheet for " ++ symbol ++ ": ")
                      ++ exn_str e))) /\
     get_cash_flow env symbol lang
     = ([Init (upper symbol) "VCI"],
        Return (Text (("Error fetching cash flow for " ++ symbol ++ ": ")
                      ++ exn_str e))) /\
     get_financial_ratios env symbol lang
     = ([Init (upper symbol) "VCI"],
        Return (Text (("Error fetching financial ratios for " ++ symbol ++ ": ")
                      ++ exn_str e))) /\
     get_company_info env symbol info_type lang
     = ([Init (upper symbol) "VCI"],
        Return (Text (("Error fetching " ++ info_type ++ " for " ++ symbol ++ ": ")
                      ++ exn_str e)))) /\
  (vnstock_stock env (upper symbol) "TCBS" = Err e ->
   get_dividend_history env symbol
   = ([Init (upper symbol) "TCBS"],
      Return (Text (("Error fetching dividend history for " ++ symbol ++ ": ")
                    ++ exn_str e)))).
Proof.
  split.
  - intros H lang info_type.
    repeat match goal with |- _ /\ _ => split end;
      apply no_handle_no_request; exact H.
  - intros H. apply no_handle_no_request. exact H.
Qed.

Lemma no_handle_no_data_request_witness :
  get_cash_flow unreachable "vci" "en"
  = ([Init "VCI" "VCI"], Return (Text "Error fetching cash flow for vci: boom")).
Proof.
  apply (proj1 (no_handle_no_data_request unreachable "vci"
                  (mkExn OtherException "boom")) eq_refl "en" "overview").
Defined.

(* ================================================================== *)
(** ** How messages begin *)
(* ================================================================== *)

Lemma prefix_append (a p m : string) :
  String.prefix a p = true -> String.prefix a (p ++ m) = true.
Proof.
  revert p. induction a as [| c a IH]; intros p H.
  - destruct (p ++ m); reflexivity.
  - destruct p as [| c' p]; simpl in *; [discriminate H |].
    destruct (Ascii.ascii_dec c c'); [apply IH, H | discriminate H].
Qed.

Lemma prefix_self_append (a m : string) : String.prefix a (a ++ m) = true.
Proof.
  induction a as [| c a IH]; simpl.
  - destruct m; reflexivity.
  - destruct (Ascii.ascii_dec c c); [exact IH | congruence].
Qed.

Lemma known_opening_append (p m : string) :
  known_opening p = true -> known_opening (p ++ m) = true.
Proof.
  unfold known_opening. intros H.
  apply orb_true_iff in H as [H | H];
    [apply orb_true_iff in H as [H | H];
       [apply orb_true_iff in H as [H | H] |] |];
    rewrite (prefix_append _ _ m H); rewrite ?orb_true_r; reflexivity.
Qed.

Lemma spoken_ret {A : Type} (a : A) : well_spoken (ret a).
Proof. intros s H. discriminate H. Qed.

Lemma spoken_json {A : Type} (j : json) : well_spoken (@return_ A (Json j)).
Proof. intros s H. discriminate H. Qed.

Lemma spoken_text {A : Type} (m : string) :
  known_opening m = true -> well_spoken (@return_ A (Text m)).
Proof. intros Hm s H. inversion H. subst. exact Hm. Qed.

Lemma spoken_lift {A : Type} (x : ext A) : well_spoken (lift x).
Proof. intros s H. destruct x; discriminate H. Qed.

Lemma spoken_request (env : Env) (r : Request) : well_spoken (request env r).
Proof.
  intros s H. unfold request, outcome in H. simpl in H.
  destruct (data_source env r); discriminate H.
Qed.

Lemma spoken_stock (env : Env) (symbol source : string) :
  well_spoken (stock env symbol source).
Proof.
  intros s H. unfold stock, outcome in H. simpl in H.
  destruct (vnstock_stock env symbol source); discriminate H.
Qed.

Lemma spoken_or_return (df : option DataFrame) (m : string) :
  known_opening m = true -> well_spoken (or_return df m).
Proof.
  intros Hm s H. destruct df as [[| [| c r] l] |]; inversion H; subst; exact Hm.
Qed.

Lemma spoken_handler (p : string) (e : exn) :
  known_opening p = true -> well_spoken (handler p e).
Proof.
  intros Hp s H. inversion H. apply known_opening_append, Hp.
Qed.

Lemma spoken_bind {A B : Type} (m : IO A) (k : A -> IO B) :
  well_spoken m -> (forall a, well_spoken (k a)) -> well_spoken (bind m k).
Proof.
  intros Hm Hk s. unfold well_spoken, bind, outcome in *.
  destruct (snd m) as [a | r | e]; simpl; intros H.
  - exact (Hk a s H).
  - inversion H; subst. apply Hm. reflexivity.
  - discriminate H.
Qed.

Lemma spoken_try {A : Type} (m : IO A) (h : exn -> IO A) :
  well_spoken m -> (forall e, well_spoken (h e)) -> well_spoken (try_except m h).
Proof.
  intros Hm Hh s. unfold well_spoken, try_except, outcome in *.
  destruct (snd m) as [a | r | e] eqn:Hs; simpl; intros H.
  - rewrite Hs in H. discriminate H.
  - rewrite Hs in H. exact (Hm s H).
  - exact (Hh e s H).
Qed.

Lemma spoken_objective (env : Env) (solve : EF env -> ext (EF env))
    (name label : string) (mu : Mu) (S : Matrix) (rf : Q) :
  well_spoken (objective env solve name label mu S rf).
Proof.
  intros s. unfold objective, try_except_optimization, bind, outcome.
  destruct (solve_objective env solve mu S rf) as [r | e]; simpl; [discriminate |].
  destruct (exn_class e); simpl; discriminate.
Qed.

Ltac opening :=
  first [ reflexivity
        | unfold known_opening; rewrite prefix_self_append;
          rewrite ?orb_true_r; reflexivity ].

Ltac spoken :=
  repeat (intros;
          first [ apply spoken_ret
                | apply spoken_json
                | apply spoken_lift
                | apply spoken_request
                | apply spoken_stock
                | apply spoken_objective
                | apply spoken_text; opening
                | apply spoken_or_return; opening
                | apply spoken_handler; opening
                | apply spoken_bind
                | apply spoken_try
                | match goal with
                  | |- well_spoken (if ?c then _ else _) => destruct c
                  | |- well_spoken (match ?c with _ => _ end) => destruct c
                  end ]).

Lemma spoken_fetch_all (env : Env) (sd ed : string) (symbols : list string) :
  forall all_data, well_spoken (fetch_all env symbols sd ed all_data).
Proof.
  induction symbols as [| x rest IH]; intros all_data; simpl.
  - apply spoken_ret.
  - apply spoken_bind; [| intros series; apply IH].
    unfold fetch_symbol. spoken.
Qed.

Lemma spoken_price_table (env : Env) (symbols : list string) (sd ed : string) :
  well_spoken (price_table env symbols sd ed).
Proof.
  unfold price_table. apply spoken_bind; [apply spoken_fetch_all |].
  intros all_data. unfold combine, no_complete_data. spoken.
Qed.

Lemma spoken_estimates (env : Env) (symbols : list string) (sd ed cm : string)
    (lg : bool) :
  well_spoken (estimates env symbols sd ed cm lg).
Proof.
  unfold estimates. apply spoken_bind; [apply spoken_price_table | spoken].
Qed.

(** X18.  Every message a tool returns instead of JSON begins with
    "No ", "Error ", "Invalid info_type '" or "Optimization failed: ". *)
Theorem messages_have_known_openings (env : Env) (t : ToolCall) (s : string) :
  returned (call_tool env t) = Ok (Text s) -> known_opening s = true.
Proof.
  assert (H : well_spoken (call_tool env t)).
  { destruct t; cbv beta iota delta [call_tool];
      unfold_tools; unfold_blocks;
      unfold optimize_portfolio, calculate_returns_try, optimize_portfolio_try,
        full_portfolio_optimization_try, run_objectives, to_json, invalid_info_type;
      repeat first [ apply spoken_price_table | apply spoken_estimates
                   | apply spoken_fetch_all
                   | apply spoken_try | apply spoken_bind | intros ];
      spoken. }
  intros Hr. apply H. unfold returned in Hr.
  destruct (outcome (call_tool env t)) as [v | r | e]; [destruct v | | discriminate].
  inversion Hr. reflexivity.
Qed.

Lemma messages_have_known_openings_witness :
  known_opening "No data found for ZZZ between 2024-01-01 and 2024-01-31" = true.
Proof.
  apply (messages_have_known_openings calm
           (CalculateReturns ["AAA"; "ZZZ"; "BBB"] "2024-01-01" "2024-01-31"
              "mean_historical" false)).
  reflexivity.
Defined.
